(** * nodecord: the gateway client (src/util/Client.js)

    A shallow embedding of the [Client] class: the session fields, the
    heartbeat, the opcode switch, the dispatch router with its command
    parser, the handshake, the reconnect path and the public actions,
    followed by the properties of the session state machine. *)

From Stdlib Require Import ZArith String Ascii List Bool Lia.
From Stdlib Require Import DecimalString DecimalPos DecimalZ.
From stdpp Require Import base option gmap strings.
Import ListNotations.

#[local] Set Warnings "-register-all".
Local Open Scope Z_scope.
Local Open Scope string_scope.

(** ** JavaScript values

    The values that travel through the client: what [JSON.parse] returns
    for an inbound frame, what the request client resolves with, and what
    is put in an outbound frame.  Numbers are the integers (opcodes,
    sequence numbers, channel types, intervals); objects keep their
    properties in order of insertion. *)

Inductive value : Type :=
| VUndefined
| VNull
| VBool (b : bool)
| VNum (n : Z)
| VStr (s : string)
| VArr (l : list value)
| VObj (fields : list (string * value)).

(** Errors that the code can raise. *)
Inductive exn : Type :=
| TypeError (what : string)
| SyntaxError
| RequestError.

Module Js.

(** Own-property lookup in a property list. *)
Fixpoint assoc {A : Type} (k : string) (l : list (string * A)) : option A :=
  match l with
  | [] => None
  | (k', v) :: r => if String.eqb k k' then Some v else assoc k r
  end.

Definition string_of_Z (n : Z) : string :=
  NilZero.string_of_int (Z.to_int n).

(** [String(v)], which is also the property key [v] denotes in [o[v]]:
    an array joins its elements with commas, [null] and [undefined]
    elements giving the empty string.  A number is printed in decimal,
    as JavaScript prints the integers below 10^21 in magnitude. *)
Fixpoint toString (v : value) : string :=
  match v with
  | VUndefined => "undefined"
  | VNull => "null"
  | VBool true => "true"
  | VBool false => "false"
  | VNum n => string_of_Z n
  | VStr s => s
  | VArr l =>
      (fix join (l : list value) : string :=
         match l with
         | [] => ""
         | x :: r =>
             let e := match x with
                      | VUndefined | VNull => ""
                      | _ => toString x
                      end in
             match r with
             | [] => e
             | _ :: _ => e ++ "," ++ join r
             end
         end) l
  | VObj _ => "[object Object]"
  end.

(** Truthiness, as tested by [if (v)]. *)
Definition truthy (v : value) : bool :=
  match v with
  | VUndefined | VNull => false
  | VBool b => b
  | VNum n => negb (Z.eqb n 0)
  | VStr s => negb (String.eqb s "")
  | VArr _ | VObj _ => true
  end.

(** [v === "lit"] for a string literal. *)
Definition is_str (v : value) (lit : string) : bool :=
  match v with
  | VStr s => String.eqb s lit
  | _ => false
  end.

(** [v === n] for a number literal. *)
Definition is_num (v : value) (n : Z) : bool :=
  match v with
  | VNum m => Z.eqb m n
  | _ => false
  end.

(** [s.indexOf(c)] for a one-character [c]: -1 when absent. *)
Fixpoint indexOf_from (c : ascii) (s : string) (i : Z) : Z :=
  match s with
  | EmptyString => -1
  | String a r => if Ascii.eqb a c then i else indexOf_from c r (i + 1)
  end.

Definition indexOf (s : string) (c : ascii) : Z := indexOf_from c s 0.

(** [s.split(c)[0]]: the text before the first [c], the whole string
    when there is none. *)
Fixpoint split_first (s : string) (c : ascii) : string :=
  match s with
  | EmptyString => EmptyString
  | String a r => if Ascii.eqb a c then EmptyString
                  else String a (split_first r c)
  end.

(** [s.substr(start, length)] (ECMAScript B.2.2.1): a negative start
    counts from the end, the length is clamped to what remains. *)
Definition substr (s : string) (start len : Z) : string :=
  let size := Z.of_nat (String.length s) in
  let intStart := if Z.ltb start 0 then Z.max (size + start) 0
                  else Z.min start size in
  let intLength := Z.min (Z.max len 0) size in
  let intEnd := Z.min (intStart + intLength) size in
  String.substring (Z.to_nat intStart) (Z.to_nat (intEnd - intStart)) s.

Definition lower_ascii (a : ascii) : ascii :=
  let n := nat_of_ascii a in
  if (andb (Nat.leb 65 n) (Nat.leb n 90)) then ascii_of_nat (n + 32) else a.

(** [s.toLowerCase()] on ASCII text (see [ascii_text]): the letters
    A-Z are folded, every other character is kept. *)
Fixpoint toLowerCase (s : string) : string :=
  match s with
  | EmptyString => EmptyString
  | String a r => String (lower_ascii a) (toLowerCase r)
  end.

Definition upper_ascii (a : ascii) : ascii :=
  let n := nat_of_ascii a in
  if (andb (Nat.leb 97 n) (Nat.leb n 122)) then ascii_of_nat (n - 32) else a.

(** [s.toUpperCase()] on ASCII text: the letters a-z are folded. *)
Fixpoint toUpperCase (s : string) : string :=
  match s with
  | EmptyString => EmptyString
  | String a r => String (upper_ascii a) (toUpperCase r)
  end.

(** [s.replaceAll(a, b)] for one-character [a] and [b]. *)
Fixpoint replaceAll (s : string) (a b : ascii) : string :=
  match s with
  | EmptyString => EmptyString
  | String c r => String (if Ascii.eqb c a then b else c) (replaceAll r a b)
  end.

End Js.


(** ** The client object and what surrounds it *)

(** A connection made by [nocket.createConnection], a handle returned by
    [setInterval], and a function the application registered. *)
Definition sock := nat.
Definition timer := nat.
Definition callback := nat.

(** The object [{op, d, s, t}] that [_sendOpcode] serialises. *)
Record packet : Type := Packet { op : Z; d : value; s : value; t : value }.

Inductive logm : Type := LLog | LWarn | LWarning | LError.

(** What the client does to its collaborators, in the order it does it. *)
Inductive effect : Type :=
| Log (m : logm) (text : string)                 (* this.loga.<m>(text) *)
| Write (k : sock) (p : packet)                  (* socket.write(JSON.stringify(p)) *)
| End (k : sock)                                 (* socket.end() *)
| EndInner (k : sock)                            (* socket.socket.end() *)
| Request (method path : string) (body : value)  (* this._apiRequest(...) *)
| Connect (url : value) (k : sock)               (* nocket.createConnection(url) *)
| SetInterval (h : timer) (ms : value)
| ClearInterval (h : option timer)
| Emit (cb : callback) (data : value)            (* dispatchCallbacks[name](data) *)
| Command (cb : callback) (data : value) (rest : string).

(** The fields the constructor initialises. *)
Record Client : Type := {
  token : value;
  intents : value;
  isBot : bool;
  shardCount : value;
  socket : option sock;
  me : value;
  heartbeatIntervalObj : option timer;
  lastSequenceNum : value;
  heartbeatAcknowledged : bool;
  sessionID : value;
  resuming : bool;
  dispatchCallbacks : gmap string callback;
  commandChar : string;
  commandCallbacks : gmap string callback;
  guilds : gmap string value
}.

Definition set_shardCount (v : value) (c : Client) : Client :=
  {| token := token c; intents := intents c; isBot := isBot c;
     shardCount := v; socket := socket c; me := me c;
     heartbeatIntervalObj := heartbeatIntervalObj c;
     lastSequenceNum := lastSequenceNum c;
     heartbeatAcknowledged := heartbeatAcknowledged c;
     sessionID := sessionID c; resuming := resuming c;
     dispatchCallbacks := dispatchCallbacks c; commandChar := commandChar c;
     commandCallbacks := commandCallbacks c; guilds := guilds c |}.

Definition set_socket (v : option sock) (c : Client) : Client :=
  {| token := token c; intents := intents c; isBot := isBot c;
     shardCount := shardCount c; socket := v; me := me c;
     heartbeatIntervalObj := heartbeatIntervalObj c;
     lastSequenceNum := lastSequenceNum c;
     heartbeatAcknowledged := heartbeatAcknowledged c;
     sessionID := sessionID c; resuming := resuming c;
     dispatchCallbacks := dispatchCallbacks c; commandChar := commandChar c;
     commandCallbacks := commandCallbacks c; guilds := guilds c |}.

Definition set_me (v : value) (c : Client) : Client :=
  {| token := token c; intents := intents c; isBot := isBot c;
     shardCount := shardCount c; socket := socket c; me := v;
     heartbeatIntervalObj := heartbeatIntervalObj c;
     lastSequenceNum := lastSequenceNum c;
     heartbeatAcknowledged := heartbeatAcknowledged c;
     sessionID := sessionID c; resuming := resuming c;
     dispatchCallbacks := dispatchCallbacks c; commandChar := commandChar c;
     commandCallbacks := commandCallbacks c; guilds := guilds c |}.

Definition set_heartbeatIntervalObj (v : option timer) (c : Client) : Client :=
  {| token := token c; intents := intents c; isBot := isBot c;
     shardCount := shardCount c; socket := socket c; me := me c;
     heartbeatIntervalObj := v;
     lastSequenceNum := lastSequenceNum c;
     heartbeatAcknowledged := heartbeatAcknowledged c;
     sessionID := sessionID c; resuming := resuming c;
     dispatchCallbacks := dispatchCallbacks c; commandChar := commandChar c;
     commandCallbacks := commandCallbacks c; guilds := guilds c |}.

Definition set_lastSequenceNum (v : value) (c : Client) : Client :=
  {| token := token c; intents := intents c; isBot := isBot c;
     shardCount := shardCount c; socket := socket c; me := me c;
     heartbeatIntervalObj := heartbeatIntervalObj c;
     lastSequenceNum := v;
     heartbeatAcknowledged := heartbeatAcknowledged c;
     sessionID := sessionID c; resuming := resuming c;
     dispatchCallbacks := dispatchCallbacks c; commandChar := commandChar c;
     commandCallbacks := commandCallbacks c; guilds := guilds c |}.

Definition set_heartbeatAcknowledged (v : bool) (c : Client) : Client :=
  {| token := token c; intents := intents c; isBot := isBot c;
     shardCount := shardCount c; socket := socket c; me := me c;
     heartbeatIntervalObj := heartbeatIntervalObj c;
     lastSequenceNum := lastSequenceNum c;
     heartbeatAcknowledged := v;
     sessionID := sessionID c; resuming := resuming c;
     dispatchCallbacks := dispatchCallbacks c; commandChar := commandChar c;
     commandCallbacks := commandCallbacks c; guilds := guilds c |}.

Definition set_sessionID (v : value) (c : Client) : Client :=
  {| token := token c; intents := intents c; isBot := isBot c;
     shardCount := shardCount c; socket := socket c; me := me c;
     heartbeatIntervalObj := heartbeatIntervalObj c;
     lastSequenceNum := lastSequenceNum c;
     heartbeatAcknowledged := heartbeatAcknowledged c;
     sessionID := v; resuming := resuming c;
     dispatchCallbacks := dispatchCallbacks c; commandChar := commandChar c;
     commandCallbacks := commandCallbacks c; guilds := guilds c |}.

Definition set_resuming (v : bool) (c : Client) : Client :=
  {| token := token c; intents := intents c; isBot := isBot c;
     shardCount := shardCount c; socket := socket c; me := me c;
     heartbeatIntervalObj := heartbeatIntervalObj c;
     lastSequenceNum := lastSequenceNum c;
     heartbeatAcknowledged := heartbeatAcknowledged c;
     sessionID := sessionID c; resuming := v;
     dispatchCallbacks := dispatchCallbacks c; commandChar := commandChar c;
     commandCallbacks := commandCallbacks c; guilds := guilds c |}.

Definition set_dispatchCallbacks (v : gmap string callback) (c : Client) : Client :=
  {| token := token c; intents := intents c; isBot := isBot c;
     shardCount := shardCount c; socket := socket c; me := me c;
     heartbeatIntervalObj := heartbeatIntervalObj c;
     lastSequenceNum := lastSequenceNum c;
     heartbeatAcknowledged := heartbeatAcknowledged c;
     sessionID := sessionID c; resuming := resuming c;
     dispatchCallbacks := v; commandChar := commandChar c;
     commandCallbacks := commandCallbacks c; guilds := guilds c |}.

Definition set_commandCallbacks (v : gmap string callback) (c : Client) : Client :=
  {| token := token c; intents := intents c; isBot := isBot c;
     shardCount := shardCount c; socket := socket c; me := me c;
     heartbeatIntervalObj := heartbeatIntervalObj c;
     lastSequenceNum := lastSequenceNum c;
     heartbeatAcknowledged := heartbeatAcknowledged c;
     sessionID := sessionID c; resuming := resuming c;
     dispatchCallbacks := dispatchCallbacks c; commandChar := commandChar c;
     commandCallbacks := v; guilds := guilds c |}.

Definition set_guilds (v : gmap string value) (c : Client) : Client :=
  {| token := token c; intents := intents c; isBot := isBot c;
     shardCount := shardCount c; socket := socket c; me := me c;
     heartbeatIntervalObj := heartbeatIntervalObj c;
     lastSequenceNum := lastSequenceNum c;
     heartbeatAcknowledged := heartbeatAcknowledged c;
     sessionID := sessionID c; resuming := resuming c;
     dispatchCallbacks := dispatchCallbacks c; commandChar := commandChar c;
     commandCallbacks := commandCallbacks c; guilds := v |}.

(** The client together with the timers and connections of the process.
    [timers] are the intervals that are armed, [sockets] the connections
    whose handlers are attached, [connecting] the calls of
    [_gatewayConnect] suspended at their [await], [trace] everything done
    so far, oldest first. *)
Record World : Type := {
  this : Client;
  timers : list timer;
  sockets : list sock;
  fresh : nat;
  connecting : nat;
  trace : list effect
}.

(** ** Computations: state, effects and exceptions

    A thrown error keeps the assignments made before it, as in JavaScript. *)

Inductive result (A : Type) : Type :=
| Ok (a : A)
| Throw (e : exn).
Arguments Ok {A} a.
Arguments Throw {A} e.

Definition M (A : Type) : Type := World -> result A * World.

#[global] Instance M_ret : MRet M := fun A a w => (Ok a, w).

#[global] Instance M_bind : MBind M := fun A B f m w =>
  match m w with
  | (Ok a, w') => f a w'
  | (Throw e, w') => (Throw e, w')
  end.

Definition throw {A : Type} (e : exn) : M A := fun w => (Throw e, w).

(** [try { body } catch { handler }]. *)
Definition try_catch (body : M unit) (handler : M unit) : M unit := fun w =>
  match body w with
  | (Ok a, w') => (Ok a, w')
  | (Throw _, w') => handler w'
  end.

Definition read : M Client := fun w => (Ok (this w), w).

Definition update (f : Client -> Client) : M unit := fun w =>
  (Ok tt, {| this := f (this w); timers := timers w; sockets := sockets w;
             fresh := fresh w; connecting := connecting w;
             trace := trace w |}).

Definition perform (e : effect) : M unit := fun w =>
  (Ok tt, {| this := this w; timers := timers w; sockets := sockets w;
             fresh := fresh w; connecting := connecting w;
             trace := trace w ++ [e] |}).

(** [setInterval(f, ms)]: a new handle, armed. *)
Definition setInterval (ms : value) : M timer := fun w =>
  let h := fresh w in
  (Ok h, {| this := this w; timers := h :: timers w; sockets := sockets w;
            fresh := S (fresh w); connecting := connecting w;
            trace := trace w ++ [SetInterval h ms] |}).

Definition disarm (h : option timer) (l : list timer) : list timer :=
  match h with
  | None => l
  | Some h => List.filter (fun x => negb (Nat.eqb x h)) l
  end.

(** [clearInterval(h)]: nothing happens for [null] or a cleared handle. *)
Definition clearInterval (h : option timer) : M unit := fun w =>
  (Ok tt, {| this := this w; timers := disarm h (timers w);
             sockets := sockets w; fresh := fresh w;
             connecting := connecting w;
             trace := trace w ++ [ClearInterval h] |}).

(** [nocket.createConnection(url)]: a new connection. *)
Definition createConnection (url : value) : M sock := fun w =>
  let k := fresh w in
  (Ok k, {| this := this w; timers := timers w; sockets := k :: sockets w;
            fresh := S (fresh w); connecting := connecting w;
            trace := trace w ++ [Connect url k] |}).

(** An [async] call reaches its [await]. *)
Definition suspend_connect : M unit := fun w =>
  (Ok tt, {| this := this w; timers := timers w; sockets := sockets w;
             fresh := fresh w; connecting := S (connecting w);
             trace := trace w |}).

(** [o.name] for the names the client reads ([op], [s], [t], [d],
    [content], ...): an own property of an object, [undefined] on any
    other value that has properties, a TypeError on [null] and
    [undefined]. *)
Definition get_prop (o : value) (name : string) : M value :=
  match o with
  | VUndefined | VNull =>
      throw (TypeError ("Cannot read properties of " ++ Js.toString o))
  | VObj fields => mret (default VUndefined (Js.assoc name fields))
  | _ => mret VUndefined
  end.

(** [o[0]]; for a string, its first character (on ASCII text a
    character is one code unit). *)
Definition get_first (o : value) : M value :=
  match o with
  | VUndefined | VNull =>
      throw (TypeError ("Cannot read properties of " ++ Js.toString o))
  | VStr (String a _) => mret (VStr (String a EmptyString))
  | VArr (x :: _) => mret x
  | VObj fields => mret (default VUndefined (Js.assoc "0" fields))
  | _ => mret VUndefined
  end.

(** [switch (x) { case "a": ...; break; ... }] on string cases. *)
Definition switch (x : string) (cases : list (string * M unit)) : M unit :=
  default (mret tt) (Js.assoc x cases).

(** ** The methods of [Client] *)

Definition GatewayOpcodes : list (string * string) :=
  [ ("0", "Dispatch"); ("1", "Heartbeat"); ("2", "Identify");
    ("3", "Status Update"); ("4", "Voice State Update");
    ("5", "Voice Server Ping"); ("6", "Resume"); ("7", "Reconnect");
    ("8", "Request Guild Members"); ("9", "Invalid Session");
    ("10", "Hello"); ("11", "Heartbeat ACK") ].

(** [`${name}`] for the result of a lookup in [GatewayOpcodes]. *)
Definition show_name (name : option string) : string :=
  default "undefined" name.

Definition log (text : string) : M unit := perform (Log LLog text).

(** [_sendOpcode(op, d, s = null, t = null)]; every caller leaves [s]
    and [t] at their defaults. *)
Definition _sendOpcode (op : Z) (d : value) : M unit :=
  log ("Sending OP " ++ Js.string_of_Z op ++ ": "
       ++ show_name (Js.assoc (Js.string_of_Z op) GatewayOpcodes));;
  c ← read;
  match socket c with
  | None => throw (TypeError "Cannot read properties of null (reading 'write')")
  | Some k => perform (Write k (Packet op d VNull VNull))
  end.

(** [_gatewayConnect()] up to its [await]: the request for the endpoint
    is issued and the call is suspended. *)
Definition _gatewayConnect : M unit :=
  log "Requesting endpoint";;
  c ← read;
  let endpoint := if isBot c then "/gateway/bot" else "/gateway" in
  perform (Request "GET" endpoint VUndefined);;
  suspend_connect.

(** [reconnect()]. *)
Definition reconnect : M unit :=
  update (set_resuming true);;
  c ← read;
  clearInterval (heartbeatIntervalObj c);;
  update (set_heartbeatAcknowledged true);;
  _gatewayConnect.

(** [_heartbeat()]. *)
Definition _heartbeat : M unit :=
  c ← read;
  if negb (heartbeatAcknowledged c) then
    perform (Log LWarn "No heartbeat ACK. Reconnecting");;
    reconnect
  else
    update (set_heartbeatAcknowledged false);;
    c ← read;
    _sendOpcode 1 (lastSequenceNum c).

(** [_emitEvent(eventName, eventData)].  The lookup is among the
    callbacks [onEvent] has filed; the call of the application's
    callback is recorded. *)
Definition _emitEvent (eventName eventData : value) : M unit :=
  c ← read;
  match dispatchCallbacks c !! Js.toString eventName with
  | Some cb => perform (Emit cb eventData)
  | None => mret tt
  end.

(** The command parsing of the [MESSAGE_CREATE] case, for a message
    that starts with [commandChar]: the command word and the rest of the
    command. *)
Definition parse_command (msg : string) : string * string :=
  (* remove the commandChar *)
  let command := Js.substr msg 1 (Z.of_nat (String.length msg) - 1) in
  (* split the command by spaces to take the first word *)
  let commandWord := Js.toLowerCase (Js.split_first command " ") in
  let firstSpace := Js.indexOf command " " in
  let len := Z.of_nat (String.length command) - firstSpace in
  (* add 1 to remove the space after the command word *)
  let restOfCommand := Js.substr command (firstSpace + 1) len in
  (commandWord, restOfCommand).

(** The [MESSAGE_CREATE] case of [_handleDispatch].  The lookup is
    among the callbacks [registerCommand] has filed; the call of the
    application's callback is recorded. *)
Definition message_create (data : value) : M unit :=
  msg ← get_prop data "content";
  first ← get_first msg;
  c ← read;
  (* check for a command *)
  if Js.is_str first (commandChar c) then
    match msg with
    | VStr msg =>
        let (commandWord, restOfCommand) := parse_command msg in
        (* callback with all the rest of the command *)
        match commandCallbacks c !! commandWord with
        | Some cb =>
            log ("Command received: " ++ commandWord);;
            perform (Command cb data restOfCommand)
        | None => mret tt
        end
    | _ => throw (TypeError "msg.substr is not a function")
    end
  else mret tt.

(** [_handleDispatch(dispatchName, data)]. *)
Definition _handleDispatch (dispatchName data : value) : M unit :=
  log ("Dispatch event: " ++ Js.toString dispatchName);;
  _emitEvent dispatchName data;;
  match dispatchName with
  | VStr name =>
      switch name
        [ ("READY",
            session_id ← get_prop data "session_id";
            update (set_sessionID session_id);;
            user ← get_prop data "user";
            update (set_me user));
          ("GUILD_CREATE",
            id ← get_prop data "id";
            c ← read;
            update (set_guilds (<[Js.toString id := data]> (guilds c))));
          ("MESSAGE_CREATE", message_create data);
          ("RESUMED", update (set_resuming false)) ]
  | _ => mret tt
  end.

Definition identify_payload (c : Client) : value :=
  VObj [ ("token", token c);
         ("intents", intents c);
         ("properties", VObj []);
         ("compress", VBool false);
         ("large_threshold", VNum 100);
         ("presence", VObj [ ("since", VNull);
                             ("status", VStr "online");
                             ("game", VNull);
                             ("afk", VBool false) ]) ].

Definition resume_payload (c : Client) : value :=
  VObj [ ("token", token c);
         ("session_id", sessionID c);
         ("seq", lastSequenceNum c) ].

(** [_handleHello(interval)]. *)
Definition _handleHello (interval : value) : M unit :=
  h ← setInterval interval;
  update (set_heartbeatIntervalObj (Some h));;
  log ("Heartbeat set to " ++ Js.toString interval ++ "ms");;
  c ← read;
  if negb (resuming c) then _sendOpcode 2 (identify_payload c)
  else _sendOpcode 6 (resume_payload c).

(** [_handleGatewayObject(obj)]. *)
Definition _handleGatewayObject (obj : value) : M unit :=
  op ← get_prop obj "op";
  let opName := Js.assoc (Js.toString op) GatewayOpcodes in
  log ("Received OP " ++ Js.toString op ++ ": " ++ show_name opName);;
  match opName with
  | Some opName =>
      switch opName
        [ ("Dispatch",
            s ← get_prop obj "s";
            update (set_lastSequenceNum s);;
            t ← get_prop obj "t";
            d ← get_prop obj "d";
            _handleDispatch t d);
          ("Heartbeat", _heartbeat);
          ("Reconnect", reconnect);
          ("Invalid Session",
            c ← read;
            match socket c with
            | Some k => perform (End k)
            | None => mret tt
            end);
          ("Hello",
            d ← get_prop obj "d";
            interval ← get_prop d "heartbeat_interval";
            _handleHello interval);
          ("Heartbeat ACK", update (set_heartbeatAcknowledged true)) ]
  | None => mret tt
  end.

(** [_gatewayConnect()] from its [await] on, [gateway] being what the
    request resolved with. *)
Definition _gatewayConnect_resumed (gateway : value) : M unit :=
  shards ← get_prop gateway "shards";
  update (set_shardCount shards);;
  c ← read;
  (if resuming c then
     match socket c with
     | None => throw (TypeError "Cannot read properties of null (reading 'socket')")
     | Some k => perform (EndInner k);; update (set_socket None)
     end
   else mret tt);;
  url ← get_prop gateway "url";
  log ("Connecting to '" ++ Js.toString url ++ "'");;
  k ← createConnection url;
  update (set_socket (Some k)).

(** The handlers attached to the connection. *)
Section Handlers.

(** [JSON.parse]: [None] when it throws. *)
Variable JSON_parse : string -> option value.

Definition on_data (data : string) : M unit :=
  try_catch
    (match JSON_parse data with
     | Some obj => _handleGatewayObject obj
     | None => throw SyntaxError
     end)
    (log "Couldn't handle a gateway object";;
     log data).

Definition on_end : M unit :=
  log "End of socket";;
  c ← read;
  clearInterval (heartbeatIntervalObj c).

Definition on_host_disconnect (data : value) : M unit :=
  perform (Log LError ("Socket disconnected by host: " ++ Js.toString data)).

End Handlers.

(** [onEvent(eventName, callback)]. *)
Definition onEvent (eventName : string) (cb : callback) : M unit :=
  let eName := Js.replaceAll (Js.toUpperCase eventName) " " "_" in
  c ← read;
  update (set_dispatchCallbacks (<[eName := cb]> (dispatchCallbacks c))).

(** [registerCommand(keyWord, callback)]. *)
Definition registerCommand (keyWord : string) (cb : callback) : M unit :=
  c ← read;
  update (set_commandCallbacks
            (<[Js.toLowerCase keyWord := cb]> (commandCallbacks c))).

(** A parameter with a default value: the default stands in for
    [undefined]. *)
Definition or_default (v dflt : value) : value :=
  match v with
  | VUndefined => dflt
  | _ => v
  end.

(** [statusUpdate(status, game = null, since = null, afk = false)]. *)
Definition statusUpdate (status game since afk : value) : M unit :=
  let game := or_default game VNull in
  let since := or_default since VNull in
  let afk := or_default afk (VBool false) in
  _sendOpcode 3 (VObj [ ("since", since); ("game", game);
                        ("status", status); ("afk", afk) ]).

(** [createMessage(channelID, content)]: the request is issued and its
    promise handed back. *)
Definition createMessage (channelID content : value) : M unit :=
  perform (Request "POST" ("/channels/" ++ Js.toString channelID ++ "/messages")
             (VObj [("content", content)])).

(** [joinVoiceChannel(channelID, selfMute, selfDeaf)] up to its [await]. *)
Definition joinVoiceChannel (channelID : value) : M unit :=
  perform (Request "GET" ("/channels/" ++ Js.toString channelID) VUndefined).

(** [joinVoiceChannel(channelID, selfMute = false, selfDeaf = false)]
    from its [await] on; [lookup] is how the request
    settled: [Throw] when the promise rejects, [Ok v] when it resolves
    with [v].  An error that leaves this function rejects the promise
    handed to the caller. *)
Definition joinVoiceChannel_resumed
    (channelID selfMute selfDeaf : value) (lookup : result value) : M unit :=
  let selfMute := or_default selfMute (VBool false) in
  let selfDeaf := or_default selfDeaf (VBool false) in
  channelObj ← (match lookup with
                | Ok v => mret v
                | Throw e => throw e
                end);
  guildID ← get_prop channelObj "guild_id";
  if Js.truthy channelObj then
    type ← get_prop channelObj "type";
    if Js.is_num type 2 then
      guild_id ← get_prop channelObj "guild_id";
      _sendOpcode 4 (VObj [ ("guild_id", guild_id);
                            ("channel_id", channelID);
                            ("self_mute", selfMute);
                            ("self_deaf", selfDeaf) ])
    else
      perform (Log LWarning "joinVoiceChannel called on a non-voice channel")
  else
    perform (Log LWarning "joinVoiceChannel called with an invalid channel ID").

(** [leaveVoiceChannel(guildID)]. *)
Definition leaveVoiceChannel (guildID : value) : M unit :=
  _sendOpcode 4 (VObj [ ("guild_id", guildID);
                        ("channel_id", VNull);
                        ("self_mute", VBool false);
                        ("self_deaf", VBool false) ]).

(** The fields as the constructor leaves them, before its call of
    [_gatewayConnect]. *)
Definition new_client (token intents : value) (isBot : bool) : Client :=
  {| token := token; intents := intents; isBot := isBot;
     shardCount := VNull; socket := None; me := VNull;
     heartbeatIntervalObj := None; lastSequenceNum := VNull;
     heartbeatAcknowledged := true; sessionID := VNull; resuming := false;
     dispatchCallbacks := ∅; commandChar := "!"; commandCallbacks := ∅;
     guilds := ∅ |}.

Definition run {A : Type} (m : M A) (w : World) : World := snd (m w).

(** [new Client(token, intents, isBot)]. *)
Definition constructor (token intents : value) (isBot : bool) : World :=
  run _gatewayConnect
    {| this := new_client token intents isBot; timers := []; sockets := [];
       fresh := 0; connecting := 0; trace := [] |}.

(** The outcome of doing [e] and nothing else. *)
Definition run_to (e : effect) (w : World) : result unit * World :=
  (Ok tt, {| this := this w; timers := timers w; sockets := sockets w;
             fresh := fresh w; connecting := connecting w;
             trace := trace w ++ [e] |}).

(** ** The event loop

    The client is driven by the settling of its gateway request, by the
    three handlers of its connections, by its heartbeat timers and by the
    application calling its public methods.  Each runs to completion
    before the next; an error that escapes a handler ends that handler
    and keeps the assignments it made. *)

Inductive event : Type :=
| Resolved (gateway : value)                 (* the gateway request resolves *)
| Rejected                                   (* the gateway request fails *)
| Data (k : sock) (data : string)            (* 'data' on a connection *)
| Ended (k : sock)                           (* 'end' on a connection *)
| HostDisconnect (k : sock) (data : value)   (* 'host_disconnect' *)
| Tick (h : timer)                           (* an armed interval fires *)
| CallReconnect
| CallOnEvent (eventName : string) (cb : callback)
| CallRegisterCommand (keyWord : string) (cb : callback)
| CallStatusUpdate (status game since afk : value)
| CallCreateMessage (channelID content : value)
| CallJoinVoiceChannel (channelID : value)
| JoinVoiceChannelSettled (channelID selfMute selfDeaf : value)
                          (lookup : result value)
| CallLeaveVoiceChannel (guildID : value).

Definition enabled (e : event) (w : World) : Prop :=
  match e with
  | Resolved _ | Rejected => (0 < connecting w)%nat
  | Data k _ | Ended k | HostDisconnect k _ => In k (sockets w)
  | Tick h => In h (timers w)
  | _ => True
  end.

(** A suspended [_gatewayConnect] leaves its [await]. *)
Definition settle_connect : M unit := fun w =>
  (Ok tt, {| this := this w; timers := timers w; sockets := sockets w;
             fresh := fresh w; connecting := Nat.pred (connecting w);
             trace := trace w |}).

Section EventLoop.

Variable JSON_parse : string -> option value.

Definition handler (e : event) : M unit :=
  match e with
  | Resolved gateway => settle_connect;; _gatewayConnect_resumed gateway
  | Rejected => settle_connect;; throw RequestError
  | Data _ data => on_data JSON_parse data
  | Ended _ => on_end
  | HostDisconnect _ data => on_host_disconnect data
  | Tick _ => _heartbeat
  | CallReconnect => reconnect
  | CallOnEvent eventName cb => onEvent eventName cb
  | CallRegisterCommand keyWord cb => registerCommand keyWord cb
  | CallStatusUpdate status game since afk =>
      statusUpdate status game since afk
  | CallCreateMessage channelID content => createMessage channelID content
  | CallJoinVoiceChannel channelID => joinVoiceChannel channelID
  | JoinVoiceChannelSettled channelID selfMute selfDeaf lookup =>
      joinVoiceChannel_resumed channelID selfMute selfDeaf lookup
  | CallLeaveVoiceChannel guildID => leaveVoiceChannel guildID
  end.

Definition step (e : event) (w : World) : World := run (handler e) w.

Inductive reachable : World -> Prop :=
| reach_new (token intents : value) (isBot : bool) :
    reachable (constructor token intents isBot)
| reach_step (w : World) (e : event) :
    reachable w -> enabled e w -> reachable (step e w).

End EventLoop.

(** The frames written, among the things done. *)
Definition writes (l : list effect) : list packet :=
  omap (fun e => match e with Write _ p => Some p | _ => None end) l.

(** The inbound frames handed to [_handleGatewayObject], one after the
    other; an error that escapes one is caught by the data handler. *)
Definition handle_frames (frames : list value) (w : World) : World :=
  fold_left (fun w obj => run (_handleGatewayObject obj) w) frames w.

(** ** Vocabulary of the properties *)

(** Whatever [m] does, the world before and the world after are related
    by [R]. *)
Definition keeps {A : Type} (R : World -> World -> Prop) (m : M A) : Prop :=
  forall w, R w (snd (m w)).

Definition same_seq (w w' : World) : Prop :=
  lastSequenceNum (this w') = lastSequenceNum (this w).

(** The opcode of a frame of the wire format: its [op], an integer. *)
Definition frame_op (obj : value) : option Z :=
  match obj with
  | VObj fields =>
      match Js.assoc "op" fields with
      | Some (VNum n) => Some n
      | _ => None
      end
  | _ => None
  end.

(** [obj.s] of a frame. *)
Definition frame_s (obj : value) : value :=
  match obj with
  | VObj fields => default VUndefined (Js.assoc "s" fields)
  | _ => VUndefined
  end.

(** The [s] of the last frame of opcode 0 in [frames]; [seq] when there
    is none. *)
Fixpoint last_dispatch_s (frames : list value) (seq : value) : value :=
  match frames with
  | [] => seq
  | obj :: rest =>
      last_dispatch_s rest
        (match frame_op obj with
         | Some 0 => frame_s obj
         | _ => seq
         end)
  end.

(** The connections and the client's [socket] are the same after as
    before. *)
Definition same_conn (w w' : World) : Prop :=
  sockets w' = sockets w /\ socket (this w') = socket (this w).

(** No timer is armed after if none was before. *)
Definition stays_idle (w w' : World) : Prop :=
  timers w = [] -> timers w' = [].

(** Either no connection was ever made and no timer is armed, or the
    client holds a connection. *)
Definition wired (w : World) : Prop :=
  (sockets w = [] /\ timers w = []) \/ (exists k, socket (this w) = Some k).

(** What happens to the heartbeat timer over the life of a session: the
    server's Hello is handled, or the client reconnects. *)
Inductive session_op : Type :=
| OpHello (interval : value)
| OpReconnect.

Definition run_op (o : session_op) : World -> World :=
  match o with
  | OpHello interval => run (_handleHello interval)
  | OpReconnect => run reconnect
  end.

Definition run_ops (ops : list session_op) (w : World) : World :=
  fold_left (fun w o => run_op o w) ops w.

(** No Hello comes while a timer may be armed: between two Hellos there
    is a reconnect.  [armed] tells whether a timer may be armed at the
    start. *)
Fixpoint spaced (armed : bool) (ops : list session_op) : bool :=
  match ops with
  | [] => true
  | OpReconnect :: rest => spaced false rest
  | OpHello _ :: rest => negb armed && spaced true rest
  end.

(** The armed timers are at most the one the client remembers. *)
Definition tidy (w : World) : Prop :=
  forall h, In h (timers w) ->
    timers w = [h] /\ heartbeatIntervalObj (this w) = Some h.

Definition armed (w : World) : bool :=
  match timers w with
  | [] => false
  | _ :: _ => true
  end.

(** [o.name] as a value: [undefined] where there is no such property. *)
Definition prop (o : value) (name : string) : value :=
  match o with
  | VObj fields => default VUndefined (Js.assoc name fields)
  | _ => VUndefined
  end.

(** The initial presence the client announces. *)
Definition presence_sent : value :=
  VObj [ ("since", VNull); ("status", VStr "online");
         ("game", VNull); ("afk", VBool false) ].

(** The initial presence with the activity under the name [activity]. *)
Definition presence_with_activity : value :=
  VObj [ ("since", VNull); ("status", VStr "online");
         ("activity", VNull); ("afk", VBool false) ].

Definition identify_shape (payload : value) : Prop :=
  prop payload "compress" = VBool false
  /\ prop payload "large_threshold" = VNum 100
  /\ prop payload "presence" = presence_sent.

(** A written frame of opcode 2 has the shape of an Identify payload. *)
Definition identify_ok (e : effect) : Prop :=
  match e with
  | Write _ p => op p = 2 -> identify_shape (d p)
  | _ => True
  end.

(** What is done between [w] and [w'] satisfies [P]. *)
Definition extends (P : effect -> Prop) (w w' : World) : Prop :=
  exists l, trace w' = (trace w ++ l)%list /\ Forall P l.

(** The key under which [onEvent] files a callback. *)
Definition event_key (eventName : string) : string :=
  Js.replaceAll (Js.toUpperCase eventName) " " "_".

(** What [_handleDispatch] adds to the trace before its built-in cases. *)
Definition dispatch_prefix (c : Client) (name : string) (data : value)
  : list effect :=
  Log LLog ("Dispatch event: " ++ name)
  :: match dispatchCallbacks c !! name with
     | Some cb => [Emit cb data]
     | None => []
     end.

(** A world that differs from [w] in its trace only. *)
Definition with_trace (w : World) (l : list effect) : World :=
  {| this := this w; timers := timers w; sockets := sockets w;
     fresh := fresh w; connecting := connecting w; trace := l |}.

(** A world that differs from [w] in the client's fields and its trace. *)
Definition with_this (w : World) (c : Client) (l : list effect) : World :=
  {| this := c; timers := timers w; sockets := sockets w;
     fresh := fresh w; connecting := connecting w; trace := l |}.

Definition any_effect (e : effect) : Prop := True.

(** [w] is reached from [w0] by events of the loop. *)
Inductive reaches (JSON_parse : string -> option value) (w0 : World)
  : World -> Prop :=
| reaches_here : reaches JSON_parse w0 w0
| reaches_step (w : World) (e : event) :
    reaches JSON_parse w0 w -> enabled e w ->
    reaches JSON_parse w0 (step JSON_parse e w).

(** The client is resuming although it never had a connection. *)
Definition stranded (w : World) : Prop :=
  socket (this w) = None /\ resuming (this w) = true
  /\ sockets w = [] /\ timers w = [].

Definition still_resuming (w w' : World) : Prop :=
  resuming (this w) = true -> resuming (this w') = true.

(** A written frame has no [s] and no [t] and one of the opcodes a
    client sends. *)
Definition frame_ok (e : effect) : Prop :=
  match e with
  | Write _ p => s p = VNull /\ t p = VNull /\ In (op p) [1; 2; 3; 4; 6]
  | _ => True
  end.

(** Nothing was written, armed, cancelled, connected or requested
    between [w] and [w'], and no heartbeat was settled. *)
Definition passive (w w' : World) : Prop :=
  writes (trace w') = writes (trace w)
  /\ timers w' = timers w
  /\ sockets w' = sockets w
  /\ socket (this w') = socket (this w)
  /\ heartbeatAcknowledged (this w') = heartbeatAcknowledged (this w)
  /\ connecting w' = connecting w.

Definition same_resuming (w w' : World) : Prop :=
  resuming (this w') = resuming (this w).

(** The text is made of ASCII characters only: on such text the string
    operations of [Js] are those of JavaScript, character for
    character. *)
Fixpoint ascii_text (s : string) : bool :=
  match s with
  | EmptyString => true
  | String a r => Nat.ltb (nat_of_ascii a) 128 && ascii_text r
  end.

(** ** Sample data *)

Definition sample_gateway : value :=
  VObj [("url", VStr "wss://gateway.discord.gg"); ("shards", VNum 1)].

(** A client whose first connection has been made. *)
Definition connected_world : World :=
  run (settle_connect;; _gatewayConnect_resumed sample_gateway)
    (constructor (VStr "secret") (VNum 513) true).

Definition dispatch_frame (name : string) (seq : Z) (data : value) : value :=
  VObj [("t", VStr name); ("s", VNum seq); ("op", VNum 0); ("d", data)].

Definition hello_frame (interval : Z) : value :=
  VObj [("t", VNull); ("s", VNull); ("op", VNum 10);
        ("d", VObj [("heartbeat_interval", VNum interval)])].

Definition bare_frame (opcode : Z) : value :=
  VObj [("t", VNull); ("s", VNull); ("op", VNum opcode); ("d", VNull)].

Definition sample_frames : list value :=
  [ hello_frame 45000;
    dispatch_frame "READY" 1
      (VObj [("session_id", VStr "abc"); ("user", VObj [("id", VStr "42")])]);
    bare_frame 11;
    dispatch_frame "TYPING_START" 2 VNull;
    bare_frame 1;
    bare_frame 7 ].

(** A stand-in for [JSON.parse] on four payloads; anything else does
    not parse. *)
Definition sample_parse (data : string) : option value :=
  if String.eqb data "hello" then Some (hello_frame 45000)
  else if String.eqb data "ack" then Some (bare_frame 11)
  else if String.eqb data "heartbeat" then Some (bare_frame 1)
  else if String.eqb data "ready" then
    Some (dispatch_frame "READY" 1
            (VObj [("session_id", VStr "abc");
                   ("user", VObj [("id", VStr "42")])]))
  else None.

(** The connected client after the server's Hello. *)
Definition greeted_world : World :=
  step sample_parse (Data 0%nat "hello") connected_world.

(** ... and after its first heartbeat, not yet acknowledged. *)
Definition waiting_world : World :=
  step sample_parse (Tick 1%nat) greeted_world.

(** The session is established, then the client reconnects and the new
    connection is made. *)
Definition resuming_world : World :=
  step sample_parse (Resolved sample_gateway)
    (step sample_parse CallReconnect
       (step sample_parse (Data 0%nat "ready") greeted_world)).

(** The command "ping" is registered. *)
Definition ping_world : World :=
  run (registerCommand "ping" 7%nat) connected_world.

Definition ping_message : value := VObj [("content", VStr "!ping")].

Definition ping_frame : value := dispatch_frame "MESSAGE_CREATE" 7 ping_message.

(** A stand-in for [JSON.parse] under which "hello" is a Hello frame
    whose payload is [null]. *)
Definition hollow_parse (data : string) : option value :=
  if String.eqb data "hello" then Some (bare_frame 10) else None.

(** * Properties *)

(** ** The string operations on samples *)

Example toString_num : Js.toString (VNum 10) = "10".
Proof. reflexivity. Qed.

Example toString_arr :
  Js.toString (VArr [VNum 0; VNull; VArr [VStr "a"; VNum (-2)]]) = "0,,a,-2".
Proof. reflexivity. Qed.

Example substr_ping : Js.substr "!ping" 1 4 = "ping".
Proof. reflexivity. Qed.

Example substr_rest : Js.substr "say hello world" 4 12 = "hello world".
Proof. reflexivity. Qed.

Example substr_negative_start : Js.substr "hello" (-3) 2 = "ll".
Proof. reflexivity. Qed.

Example indexOf_none : Js.indexOf "ping" " " = -1.
Proof. reflexivity. Qed.

Example split_first_two : Js.split_first "Say hi there" " " = "Say".
Proof. reflexivity. Qed.

Example toLowerCase_mixed : Js.toLowerCase "PiNg-9" = "ping-9".
Proof. reflexivity. Qed.

Example onEvent_normalises :
  dispatchCallbacks (this (run (onEvent "message create" 3%nat) connected_world))
  = dispatchCallbacks (this (run (onEvent "MESSAGE_CREATE" 3%nat) connected_world)).
Proof. reflexivity. Qed.

(** ** Decimal keys *)

Lemma to_int_not_nil (n : Z) :
  Z.to_int n <> Decimal.Pos Decimal.Nil /\ Z.to_int n <> Decimal.Neg Decimal.Nil.
Proof.
  destruct n as [|p|p]; simpl; split; try discriminate;
    intros [= H]; exact (DecimalPos.Unsigned.to_uint_nonnil p H).
Qed.

Lemma string_of_Z_inj (a b : Z) :
  Js.string_of_Z a = Js.string_of_Z b -> a = b.
Proof.
  unfold Js.string_of_Z. intros H.
  apply DecimalZ.to_int_inj.
  destruct (to_int_not_nil a) as [Ha1 Ha2], (to_int_not_nil b) as [Hb1 Hb2].
  pose proof (NilZero.isi _ Ha1 Ha2) as Ia.
  pose proof (NilZero.isi _ Hb1 Hb2) as Ib.
  rewrite H in Ia. congruence.
Qed.

(** ** Framing: what a computation leaves alone *)

Section Frame.

Variable R : World -> World -> Prop.
Hypothesis R_refl : forall w, R w w.
Hypothesis R_trans : forall a b c, R a b -> R b c -> R a c.

Lemma keeps_ret {A : Type} (a : A) : keeps R (mret a).
Proof. intros w. apply R_refl. Qed.

Lemma keeps_throw {A : Type} (e : exn) : keeps R (@throw A e).
Proof. intros w. apply R_refl. Qed.

Lemma keeps_read : keeps R read.
Proof. intros w. apply R_refl. Qed.

Lemma keeps_bind {A B : Type} (m : M A) (f : A -> M B) :
  keeps R m -> (forall a, keeps R (f a)) -> keeps R (m ≫= f).
Proof.
  intros Hm Hf w. unfold mbind, M_bind.
  specialize (Hm w). destruct (m w) as [[a|e] w1]; simpl in *.
  - eapply R_trans; [exact Hm | apply Hf].
  - exact Hm.
Qed.

Lemma keeps_try_catch (body handler : M unit) :
  keeps R body -> keeps R handler -> keeps R (try_catch body handler).
Proof.
  intros Hb Hh w. unfold try_catch.
  specialize (Hb w). destruct (body w) as [[a|e] w1]; simpl in *.
  - exact Hb.
  - eapply R_trans; [exact Hb | apply Hh].
Qed.

Lemma keeps_get_prop (o : value) (name : string) : keeps R (get_prop o name).
Proof. destruct o; intros w; apply R_refl. Qed.

Lemma keeps_get_first (o : value) : keeps R (get_first o).
Proof.
  destruct o as [| | | |[|a r]|[|x l]|]; intros w; apply R_refl.
Qed.

Lemma keeps_switch (x : string) (cases : list (string * M unit)) :
  Forall (fun c => keeps R (snd c)) cases -> keeps R (switch x cases).
Proof.
  unfold switch. induction 1 as [|[k m] cases Hm _ IH]; simpl.
  - apply keeps_ret.
  - destruct (String.eqb x k); [exact Hm | exact IH].
Qed.

End Frame.

(** One goal for each case of a switch. *)
Ltac each_case :=
  repeat (apply List.Forall_cons; [simpl|]); [.. | apply List.Forall_nil].

(** Breaks a computation into its primitive steps. *)
Ltac frame_step :=
  first
    [ apply keeps_ret; solve [auto]
    | apply keeps_throw; solve [auto]
    | apply keeps_read; solve [auto]
    | apply keeps_get_prop; solve [auto]
    | apply keeps_get_first; solve [auto]
    | apply keeps_bind; [solve [eauto] | | intros ?]
    | apply keeps_try_catch; [solve [eauto] | | ]
    | apply keeps_switch; [solve [auto] | each_case]
    | match goal with
      | |- keeps _ (match ?x with _ => _ end) => destruct x
      end
    | progress cbv zeta ].

Ltac frame := repeat frame_step.

(** *** The sequence number *)

Lemma same_seq_refl w : same_seq w w.
Proof. reflexivity. Qed.

Lemma same_seq_trans a b c : same_seq a b -> same_seq b c -> same_seq a c.
Proof. unfold same_seq. congruence. Qed.

#[local] Hint Resolve same_seq_refl same_seq_trans : core.

Ltac prim := solve [intros ?; repeat split; reflexivity].

Lemma same_seq_sendOpcode op d : keeps same_seq (_sendOpcode op d).
Proof. unfold _sendOpcode, log. frame; prim. Qed.

Lemma same_seq_reconnect : keeps same_seq reconnect.
Proof. unfold reconnect, _gatewayConnect, log. frame; prim. Qed.

Lemma same_seq_heartbeat : keeps same_seq _heartbeat.
Proof.
  unfold _heartbeat. frame; try prim;
    auto using same_seq_reconnect, same_seq_sendOpcode.
Qed.

Lemma same_seq_handleDispatch t d : keeps same_seq (_handleDispatch t d).
Proof.
  frame; prim.
Qed.

Lemma same_seq_handleHello interval : keeps same_seq (_handleHello interval).
Proof.
  unfold _handleHello, log. frame; try prim; apply same_seq_sendOpcode.
Qed.

(** *** Running a computation step by step *)

Lemma bind_ok {A B : Type} (m : M A) (f : A -> M B) w a w1 :
  m w = (Ok a, w1) -> (m ≫= f) w = f a w1.
Proof. intros H. unfold mbind, M_bind. now rewrite H. Qed.

Lemma bind_throw {A B : Type} (m : M A) (f : A -> M B) w e w1 :
  m w = (Throw e, w1) -> (m ≫= f) w = (Throw e, w1).
Proof. intros H. unfold mbind, M_bind. now rewrite H. Qed.

Lemma keeps_ret_bind {A B : Type} R (a : A) (f : A -> M B) :
  keeps R (f a) -> keeps R (mret a ≫= f).
Proof. intros H w. exact (H w). Qed.

Lemma keeps_switch_except R (x k : string) (cases : list (string * M unit)) :
  (forall w, R w w) ->
  x <> k ->
  Forall (fun c => fst c = k \/ keeps R (snd c)) cases ->
  keeps R (switch x cases).
Proof.
  intros Hrefl Hx. unfold switch.
  induction 1 as [|[k' m] cases Hm _ IH]; simpl.
  - intros w. apply Hrefl.
  - destruct (String.eqb_spec x k') as [->|_]; [|exact IH].
    destruct Hm as [Hm|Hm]; [contradiction | exact Hm].
Qed.

(** *** The opcode table *)

Lemma opcode_zero_key (n : Z) : Js.string_of_Z n = "0" -> n = 0.
Proof. intros H. apply string_of_Z_inj. exact H. Qed.

Lemma opcode_name_dispatch (key : string) :
  Js.assoc key GatewayOpcodes = Some "Dispatch" -> key = "0".
Proof.
  unfold GatewayOpcodes. simpl.
  repeat match goal with
         | |- context [String.eqb key ?k] =>
             destruct (String.eqb_spec key k) as [->|?]
         end; intros H; (discriminate H || reflexivity).
Qed.

(** *** One frame *)

Lemma handle_other_opcode (obj : value) (n : Z) :
  frame_op obj = Some n -> n <> 0 ->
  keeps same_seq (_handleGatewayObject obj).
Proof.
  intros Hop Hn. destruct obj as [| | | | | |fields]; try discriminate.
  unfold frame_op in Hop. unfold _handleGatewayObject, get_prop.
  destruct (Js.assoc "op" fields) as [[| | |m| | |]|]; try discriminate.
  injection Hop as ->. simpl default.
  apply keeps_ret_bind. unfold log.
  apply keeps_bind; [eauto | prim | intros _].
  destruct (Js.assoc (Js.toString (VNum n)) GatewayOpcodes) as [name|] eqn:E;
    [|apply keeps_ret; auto].
  assert (name <> "Dispatch") as Hname.
  { intros ->. apply opcode_name_dispatch in E. simpl in E.
    apply opcode_zero_key in E. contradiction. }
  apply (keeps_switch_except _ _ "Dispatch"); auto.
  each_case; try (left; reflexivity); right.
  - apply same_seq_heartbeat.
  - apply same_seq_reconnect.
  - frame; prim.
  - frame; prim.
  - prim.
Qed.

Lemma handle_dispatch_opcode (obj : value) (w : World) :
  frame_op obj = Some 0 ->
  lastSequenceNum (this (run (_handleGatewayObject obj) w)) = frame_s obj.
Proof.
  intros Hop. destruct obj as [| | | | | |fields]; try discriminate.
  unfold frame_op in Hop.
  destruct (Js.assoc "op" fields) as [[| | |m| | |]|] eqn:E; try discriminate.
  injection Hop as ->.
  unfold run, _handleGatewayObject, get_prop. rewrite E. simpl default.
  unfold mbind at 1, M_bind at 1, mret at 1, M_ret at 1.
  unfold log. erewrite bind_ok by reflexivity.
  change (Js.assoc (Js.toString (VNum 0)) GatewayOpcodes) with (Some "Dispatch").
  cbv beta iota. unfold switch. simpl Js.assoc at 1. simpl default at 1.
  unfold mret at 1, M_ret at 1.
  erewrite bind_ok by reflexivity.
  erewrite bind_ok by reflexivity.
  match goal with
  | |- context [snd ((?m ≫= ?f) ?w0)] =>
      change (snd ((m ≫= f) w0)) with (snd ((m ≫= f) w0));
      transitivity (lastSequenceNum (this w0)); [|reflexivity]
  end.
  match goal with
  | |- lastSequenceNum (this (snd (?m ?w0))) = _ =>
      assert (keeps same_seq m) as K
  end.
  { frame; prim. }
  apply K.
Qed.

(** ** The sequence number follows the Dispatch frames *)

(** C1.  Whatever frames of the wire format [_handleGatewayObject] is
    given, one after the other, [lastSequenceNum] ends as the [s] of the
    last frame of opcode 0 among them (and as it was when there is none);
    and a frame of any other opcode leaves [lastSequenceNum] as it
    found it. *)
Theorem lastSequenceNum_follows_dispatch (frames : list value) (w : World) :
  Forall (fun obj => is_Some (frame_op obj)) frames ->
  lastSequenceNum (this (handle_frames frames w))
    = last_dispatch_s frames (lastSequenceNum (this w))
  /\ (forall obj n w0,
        frame_op obj = Some n -> n <> 0 ->
        lastSequenceNum (this (run (_handleGatewayObject obj) w0))
          = lastSequenceNum (this w0)).
Proof.
  intros Hall. split.
  - revert w. induction Hall as [|obj frames [n Hn] _ IH]; intros w.
    + reflexivity.
    + simpl. rewrite IH. f_equal. rewrite Hn.
      destruct (Z.eq_dec n 0) as [->|Hne].
      * apply handle_dispatch_opcode. exact Hn.
      * transitivity (lastSequenceNum (this w)).
        -- exact (handle_other_opcode obj n Hn Hne w).
        -- destruct n; congruence.
  - intros obj n w0 Hn Hne. exact (handle_other_opcode obj n Hn Hne w0).
Qed.

Lemma lastSequenceNum_follows_dispatch_witness :
  Forall (fun obj => is_Some (frame_op obj)) sample_frames
  /\ lastSequenceNum (this (handle_frames sample_frames connected_world))
     = VNum 2.
Proof.
  assert (Forall (fun obj => is_Some (frame_op obj)) sample_frames) as H.
  { repeat (apply List.Forall_cons; [eexists; reflexivity|]).
    apply List.Forall_nil. }
  split; [exact H|].
  exact (proj1 (lastSequenceNum_follows_dispatch sample_frames connected_world H)).
Defined.

(** ** A handler finds the connection it needs *)

Lemma same_conn_refl w : same_conn w w.
Proof. split; reflexivity. Qed.

Lemma same_conn_trans a b c : same_conn a b -> same_conn b c -> same_conn a c.
Proof. unfold same_conn. intros [-> ->] [-> ->]. split; reflexivity. Qed.

Lemma stays_idle_refl w : stays_idle w w.
Proof. intros H. exact H. Qed.

Lemma stays_idle_trans a b c :
  stays_idle a b -> stays_idle b c -> stays_idle a c.
Proof. unfold stays_idle. auto. Qed.

#[local] Hint Resolve same_conn_refl same_conn_trans
  stays_idle_refl stays_idle_trans : core.

Lemma stays_idle_clearInterval h : keeps stays_idle (clearInterval h).
Proof. intros w H. simpl. rewrite H. destruct h; reflexivity. Qed.

(** Runs the primitive steps of a computation on a symbolic world. *)
Ltac exec :=
  repeat (unfold mbind, M_bind, mret, M_ret, read, update, perform, log,
            throw, createConnection, setInterval, clearInterval,
            suspend_connect, settle_connect, get_prop, try_catch, run;
          cbn -[String.append Js.toString Js.string_of_Z]).

Lemma wired_gatewayConnect_resumed (gateway : value) (w : World) :
  wired w -> wired (run (_gatewayConnect_resumed gateway) w).
Proof.
  intros Hw. unfold _gatewayConnect_resumed, wired in *.
  destruct gateway; exec; try exact Hw;
    destruct (resuming (this w)); exec;
    try destruct (socket (this w)) as [k|] eqn:Hk; exec; eauto;
    (destruct Hw as [H|[? H]]; [left; exact H | discriminate H]).
Qed.

Lemma wired_connect (gateway : value) (w : World) :
  wired w -> wired (run (settle_connect;; _gatewayConnect_resumed gateway) w).
Proof.
  intros Hw.
  change (wired (run (_gatewayConnect_resumed gateway) (run settle_connect w))).
  apply wired_gatewayConnect_resumed. exact Hw.
Qed.

Section Reachable.

Variable JSON_parse : string -> option value.

Local Abbreviation handler := (handler JSON_parse).
Local Abbreviation step := (step JSON_parse).
Local Abbreviation reachable := (reachable JSON_parse).

(** Only the settling of the gateway request changes the connection. *)
Lemma same_conn_handler (e : event) :
  (forall gateway, e <> Resolved gateway) -> keeps same_conn (handler e).
Proof.
  intros He. destruct e; simpl; try (frame; prim).
  now destruct (He gateway).
Qed.

Lemma stays_idle_call (e : event) :
  match e with
  | Resolved _ | Data _ _ | Ended _ | HostDisconnect _ _ | Tick _ => False
  | _ => True
  end ->
  keeps stays_idle (handler e).
Proof.
  destruct e; simpl; intros []; frame;
    solve [intros ? H; exact H | apply stays_idle_clearInterval].
Qed.

Lemma wired_same_conn (w w' : World) :
  (exists k, socket (this w) = Some k) -> same_conn w w' -> wired w'.
Proof. intros [k Hk] [_ Hs]. right. exists k. congruence. Qed.

Lemma wired_step (w : World) (e : event) :
  wired w -> enabled e w -> wired (step e w).
Proof.
  intros Hw He.
  assert (forall x : nat, forall l, In x l -> l <> []) as Hin
    by (intros x [|] H; [destruct H | discriminate]).
  destruct e.
  1: apply wired_connect; exact Hw.
  1: exact Hw.
  1-4: apply (wired_same_conn w);
    [ destruct Hw as [[H1 H2]|Hk]; [|exact Hk];
      apply Hin in He; contradiction
    | apply same_conn_handler; discriminate ].
  all: match goal with
       | |- wired (step ?e ?w0) =>
           pose proof (same_conn_handler e ltac:(discriminate) w0) as [Hs Hk];
           pose proof (stays_idle_call e I w0) as Hi
       end;
       (destruct Hw as [[H1 H2]|[k Hw]];
        [ left; split; [unfold step, run; congruence | exact (Hi H2)]
        | right; exists k; unfold step, run; congruence ]).
Qed.

Lemma reachable_wired (w : World) : reachable w -> wired w.
Proof.
  induction 1 as [token intents isBot | w e _ IH He].
  - left. split; reflexivity.
  - apply wired_step; assumption.
Qed.

(** While a timer is armed the client holds a connection. *)
Lemma armed_has_socket (w : World) (h : timer) :
  reachable w -> In h (timers w) -> exists k, socket (this w) = Some k.
Proof.
  intros Hr Hh. destruct (reachable_wired w Hr) as [[_ H]|H]; [|exact H].
  rewrite H in Hh. destruct Hh.
Qed.

(** So does it while a handler of a connection runs. *)
Lemma attached_has_socket (w : World) (k : sock) :
  reachable w -> In k (sockets w) -> exists k', socket (this w) = Some k'.
Proof.
  intros Hr Hk. destruct (reachable_wired w Hr) as [[H _]|H]; [|exact H].
  rewrite H in Hk. destruct Hk.
Qed.

(** ** The heartbeat tick *)

Lemma writes_app (l1 l2 : list effect) : writes (l1 ++ l2) = (writes l1 ++ writes l2)%list.
Proof. apply omap_app. Qed.

(** C2.  When an armed heartbeat timer fires: if the last heartbeat was
    not acknowledged, the tick is a call of [reconnect()] (after a
    warning) and no frame is written; otherwise [heartbeatAcknowledged]
    becomes false and exactly one frame is written, of opcode 1, whose
    payload is the current [lastSequenceNum]. *)
Theorem heartbeat_tick (w : World) (h : timer) :
  reachable w -> In h (timers w) ->
  if heartbeatAcknowledged (this w) then
    heartbeatAcknowledged (this (step (Tick h) w)) = false
    /\ writes (trace (step (Tick h) w))
       = (writes (trace w)
            ++ [Packet 1 (lastSequenceNum (this w)) VNull VNull])%list
  else
    step (Tick h) w
      = run reconnect
          (run (perform (Log LWarn "No heartbeat ACK. Reconnecting")) w)
    /\ resuming (this (step (Tick h) w)) = true
    /\ connecting (step (Tick h) w) = S (connecting w)
    /\ writes (trace (step (Tick h) w)) = writes (trace w).
Proof.
  intros Hr Hh. destruct (armed_has_socket w h Hr Hh) as [k Hk].
  unfold step, handler, _heartbeat, _sendOpcode, reconnect, _gatewayConnect.
  exec. destruct (heartbeatAcknowledged (this w)); exec.
  - rewrite Hk. exec. split; [reflexivity|].
    rewrite !writes_app. simpl. now rewrite app_nil_r.
  - repeat split. rewrite !writes_app. simpl. now rewrite !app_nil_r.
Qed.

End Reachable.

Lemma connected_reachable : reachable sample_parse connected_world.
Proof.
  change connected_world
    with (step sample_parse (Resolved sample_gateway)
            (constructor (VStr "secret") (VNum 513) true)).
  apply reach_step; [apply reach_new | simpl; lia].
Qed.

Lemma greeted_reachable : reachable sample_parse greeted_world.
Proof.
  apply reach_step; [apply connected_reachable | simpl; auto].
Qed.

Lemma waiting_reachable : reachable sample_parse waiting_world.
Proof.
  apply reach_step; [apply greeted_reachable | simpl; auto].
Qed.

Lemma heartbeat_tick_witness :
  reachable sample_parse greeted_world
  /\ In 1%nat (timers greeted_world)
  /\ heartbeatAcknowledged (this (step sample_parse (Tick 1%nat) greeted_world))
     = false
  /\ writes (trace (step sample_parse (Tick 1%nat) greeted_world))
     = (writes (trace greeted_world) ++ [Packet 1 VNull VNull VNull])%list.
Proof.
  assert (In 1%nat (timers greeted_world)) as Hin by (simpl; auto).
  split; [exact greeted_reachable|]. split; [exact Hin|].
  exact (heartbeat_tick sample_parse greeted_world 1%nat greeted_reachable Hin).
Defined.

(** The tick that finds the heartbeat unacknowledged. *)
Example unacknowledged_tick_reconnects :
  heartbeatAcknowledged (this waiting_world) = false
  /\ writes (trace (step sample_parse (Tick 1%nat) waiting_world))
     = writes (trace waiting_world)
  /\ timers (step sample_parse (Tick 1%nat) waiting_world) = [].
Proof. repeat split. Qed.

(** ** Identify or Resume *)

(** C3.  [_handleHello], run by a client that holds a connection, writes
    exactly one frame: Identify (opcode 2) if and only if [resuming] is
    false, Resume (opcode 6) if and only if [resuming] is true, and the
    payload of the Resume frame carries the stored [sessionID] and the
    stored [lastSequenceNum]. *)
Theorem handleHello_identify_or_resume (w : World) (k : sock) (interval : value) :
  socket (this w) = Some k ->
  exists p : packet,
    writes (trace (run (_handleHello interval) w))
      = (writes (trace w) ++ [p])%list
    /\ (op p = 2 <-> resuming (this w) = false)
    /\ (op p = 6 <-> resuming (this w) = true)
    /\ (resuming (this w) = true ->
        d p = VObj [ ("token", token (this w));
                     ("session_id", sessionID (this w));
                     ("seq", lastSequenceNum (this w)) ]).
Proof.
  intros Hk. unfold _handleHello, _sendOpcode. exec.
  destruct (resuming (this w)); exec; rewrite Hk; exec;
    eexists; (split; [rewrite !writes_app; simpl; rewrite !app_nil_r;
                      reflexivity|]); simpl;
    repeat split; intros; congruence || reflexivity.
Qed.

Lemma handleHello_identify_or_resume_witness :
  socket (this connected_world) = Some 0%nat
  /\ exists p : packet,
       writes (trace (run (_handleHello (VNum 45000)) connected_world))
         = (writes (trace connected_world) ++ [p])%list
       /\ (op p = 2 <-> resuming (this connected_world) = false)
       /\ (op p = 6 <-> resuming (this connected_world) = true)
       /\ (resuming (this connected_world) = true ->
           d p = VObj [ ("token", token (this connected_world));
                        ("session_id", sessionID (this connected_world));
                        ("seq", lastSequenceNum (this connected_world)) ]).
Proof.
  split; [reflexivity|].
  exact (handleHello_identify_or_resume connected_world 0%nat (VNum 45000)
           eq_refl).
Defined.

(** The same from the transport's side: a Hello frame arriving on a
    connection of a reachable client is answered with that one frame. *)
Lemma hello_frame_answered
    (JSON_parse : string -> option value) (w : World) (k : sock)
    (data : string) (fields hello : list (string * value)) :
  reachable JSON_parse w -> In k (sockets w) ->
  JSON_parse data = Some (VObj fields) ->
  Js.assoc "op" fields = Some (VNum 10) ->
  Js.assoc "d" fields = Some (VObj hello) ->
  writes (trace (step JSON_parse (Data k data) w))
    = (writes (trace w)
         ++ [if resuming (this w)
             then Packet 6 (resume_payload (this w)) VNull VNull
             else Packet 2 (identify_payload (this w)) VNull VNull])%list.
Proof.
  intros Hr Hin Hp Hop Hd.
  destruct (attached_has_socket JSON_parse w k Hr Hin) as [k' Hk].
  unfold step, handler, on_data. rewrite Hp.
  unfold _handleGatewayObject, _handleHello, _sendOpcode, switch, get_prop.
  rewrite Hop, Hd. exec. change (Js.toString (VNum 10)) with "10". exec.
  destruct (resuming (this w)); exec; rewrite Hk; exec;
    rewrite !writes_app; simpl; now rewrite !app_nil_r.
Qed.

(** A reconnect between two sessions: the Resume frame. *)
Example resume_after_reconnect :
  writes (trace (step sample_parse (Data 2%nat "hello") resuming_world))
  = (writes (trace resuming_world)
       ++ [Packet 6 (VObj [ ("token", VStr "secret");
                            ("session_id", VStr "abc");
                            ("seq", VNum 1) ]) VNull VNull])%list.
Proof. reflexivity. Qed.

(** ** The heartbeat timers *)

Lemma handleHello_timers (interval : value) (w : World) :
  timers (run (_handleHello interval) w) = fresh w :: timers w
  /\ heartbeatIntervalObj (this (run (_handleHello interval) w))
     = Some (fresh w).
Proof.
  unfold _handleHello, _sendOpcode. exec.
  destruct (resuming (this w)); exec; destruct (socket (this w)); exec;
    split; reflexivity.
Qed.

Lemma reconnect_timers (w : World) :
  timers (run reconnect w) = disarm (heartbeatIntervalObj (this w)) (timers w)
  /\ heartbeatIntervalObj (this (run reconnect w))
     = heartbeatIntervalObj (this w).
Proof. split; reflexivity. Qed.

Lemma tidy_reconnect (w : World) :
  tidy w -> timers (run reconnect w) = [].
Proof.
  intros Ht. destruct (reconnect_timers w) as [-> _].
  destruct (timers w) as [|h l] eqn:E.
  - destruct (heartbeatIntervalObj (this w)); reflexivity.
  - assert (In h (timers w)) as Hin by (rewrite E; left; reflexivity).
    destruct (Ht h Hin) as [Hl ->]. rewrite E in Hl. injection Hl as ->.
    simpl. now rewrite Nat.eqb_refl.
Qed.

Lemma tidy_run_ops (ops : list session_op) (w : World) :
  tidy w -> spaced (armed w) ops = true -> tidy (run_ops ops w).
Proof.
  revert w. induction ops as [|[interval|] ops IH]; intros w Ht Hs; simpl.
  - exact Ht.
  - simpl in Hs. apply andb_true_iff in Hs as [Ha Hs].
    destruct (handleHello_timers interval w) as [Hl Hh].
    unfold armed in Ha. destruct (timers w) eqn:E; [|discriminate].
    apply IH.
    + intros h. rewrite Hl, Hh. intros [<-|[]]. split; reflexivity.
    + unfold armed. now rewrite Hl.
  - simpl in Hs. pose proof (tidy_reconnect w Ht) as Hl.
    apply IH.
    + intros h. rewrite Hl. intros [].
    + unfold armed. now rewrite Hl.
Qed.

(** C4.  [_handleHello] overwrites the handle it keeps without
    cancelling the timer behind it: a second Hello on the same connection
    leaves two heartbeat timers armed, the first of which can no longer
    be cancelled. *)
Lemma second_hello_arms_second_timer :
  reachable sample_parse greeted_world
  /\ timers greeted_world = [1%nat]
  /\ timers (step sample_parse (Data 0%nat "hello") greeted_world)
     = [2%nat; 1%nat]
  /\ ~ (length (timers (step sample_parse (Data 0%nat "hello") greeted_world))
        <= 1)%nat.
Proof.
  split; [exact greeted_reachable|]. split; [reflexivity|].
  split; [reflexivity|]. simpl. lia.
Qed.

(** ** The command parser *)

Lemma substring_all (s : string) : String.substring 0 (String.length s) s = s.
Proof. induction s as [|a s IH]; simpl; [reflexivity | now rewrite IH]. Qed.



(** Dropping the first character. *)
Lemma substr_tail (c : ascii) (s : string) :
  Js.substr (String c s) 1 (Z.of_nat (String.length (String c s)) - 1) = s.
Proof.
  unfold Js.substr. cbn [String.length].
  set (n := String.length s).
  replace (Z.of_nat (S n) - 1) with (Z.of_nat n) by lia.
  replace (Z.ltb 1 0) with false by reflexivity.
  replace (Z.min 1 (Z.of_nat (S n))) with 1 by lia.
  replace (Z.min (Z.max (Z.of_nat n) 0) (Z.of_nat (S n))) with (Z.of_nat n)
    by lia.
  replace (Z.min (1 + Z.of_nat n) (Z.of_nat (S n))) with (Z.of_nat (S n))
    by lia.
  replace (Z.to_nat (Z.of_nat (S n) - 1)) with n by lia.
  change (Z.to_nat 1) with 1%nat. simpl. apply substring_all.
Qed.






(** C5.  The frame [{op: 0, t: "MESSAGE_CREATE", s: 7, d: {content:
    "!ping"}}] with the command "ping" registered: [lastSequenceNum]
    becomes 7 and the callback is called, but with "ping" as the rest of
    the command, not the empty string. *)
Theorem ping_remainder :
  trace (run (_handleGatewayObject ping_frame) ping_world)
    = (trace ping_world
         ++ [ Log LLog "Received OP 0: Dispatch";
              Log LLog "Dispatch event: MESSAGE_CREATE";
              Log LLog "Command received: ping";
              Command 7%nat ping_message "ping" ])%list
  /\ lastSequenceNum (this (run (_handleGatewayObject ping_frame) ping_world))
     = VNum 7
  /\ parse_command "!ping" = ("ping", "ping")
  /\ parse_command "!ping " = ("ping", "")
  /\ parse_command "!Say hello world" = ("say", "hello world").
Proof. repeat split. Qed.

(** ** A heartbeat requested by the server *)

(** While no heartbeat is outstanding, an opcode 1 frame is answered
    with one heartbeat frame. *)
Lemma server_heartbeat_answered (obj : value) (w : World) (k : sock) :
  frame_op obj = Some 1 ->
  heartbeatAcknowledged (this w) = true ->
  socket (this w) = Some k ->
  writes (trace (run (_handleGatewayObject obj) w))
    = (writes (trace w)
         ++ [Packet 1 (lastSequenceNum (this w)) VNull VNull])%list.
Proof.
  intros Hop Hack Hk. destruct obj as [| | | | | |fields]; try discriminate.
  unfold frame_op in Hop.
  destruct (Js.assoc "op" fields) as [[| | |m| | |]|] eqn:E; try discriminate.
  injection Hop as ->.
  unfold _handleGatewayObject, get_prop. rewrite E.
  unfold _heartbeat, _sendOpcode, switch. exec.
  change (Js.toString (VNum 1)) with "1". exec.
  rewrite Hack. exec. rewrite Hk. exec.
  rewrite !writes_app. simpl. now rewrite !app_nil_r.
Qed.

(** While a heartbeat is outstanding, it is answered with a reconnect
    and no frame. *)
Lemma server_heartbeat_unanswered (obj : value) (w : World) :
  frame_op obj = Some 1 ->
  heartbeatAcknowledged (this w) = false ->
  writes (trace (run (_handleGatewayObject obj) w)) = writes (trace w)
  /\ resuming (this (run (_handleGatewayObject obj) w)) = true
  /\ connecting (run (_handleGatewayObject obj) w) = S (connecting w).
Proof.
  intros Hop Hack. destruct obj as [| | | | | |fields]; try discriminate.
  unfold frame_op in Hop.
  destruct (Js.assoc "op" fields) as [[| | |m| | |]|] eqn:E; try discriminate.
  injection Hop as ->.
  unfold _handleGatewayObject, get_prop. rewrite E.
  unfold _heartbeat, reconnect, _gatewayConnect, switch. exec.
  change (Js.toString (VNum 1)) with "1". exec.
  rewrite Hack. exec. repeat split.
  rewrite !writes_app. simpl. now rewrite !app_nil_r.
Qed.

(** C6.  The client has sent a heartbeat that is not yet acknowledged
    and the server asks for one (opcode 1): the client writes nothing and
    reconnects. *)
Theorem server_heartbeat_while_waiting :
  reachable sample_parse waiting_world
  /\ heartbeatAcknowledged (this waiting_world) = false
  /\ sample_parse "heartbeat" = Some (bare_frame 1)
  /\ trace (step sample_parse (Data 0%nat "heartbeat") waiting_world)
     = (trace waiting_world
          ++ [ Log LLog "Received OP 1: Heartbeat";
               Log LWarn "No heartbeat ACK. Reconnecting";
               ClearInterval (Some 1%nat);
               Log LLog "Requesting endpoint";
               Request "GET" "/gateway/bot" VUndefined ])%list
  /\ writes (trace (step sample_parse (Data 0%nat "heartbeat") waiting_world))
     = writes (trace waiting_world).
Proof.
  split; [exact waiting_reachable|]. repeat split.
Qed.

(** ** A payload that does not parse *)

(** C7.  A payload that [JSON.parse] rejects: the data handler returns
    normally, the client, the timers and the connections are as before,
    and the only things done are the two log calls. *)
Theorem malformed_frame_dropped
    (JSON_parse : string -> option value) (data : string) (w : World) :
  JSON_parse data = None ->
  on_data JSON_parse data w
    = (Ok tt,
       {| this := this w; timers := timers w; sockets := sockets w;
          fresh := fresh w; connecting := connecting w;
          trace := trace w ++ [ Log LLog "Couldn't handle a gateway object";
                                Log LLog data ] |}).
Proof.
  intros H. unfold on_data. rewrite H. exec.
  now rewrite <- app_assoc.
Qed.

Lemma malformed_frame_dropped_witness :
  sample_parse "{op:" = None
  /\ on_data sample_parse "{op:" greeted_world
     = (Ok tt,
        {| this := this greeted_world; timers := timers greeted_world;
           sockets := sockets greeted_world; fresh := fresh greeted_world;
           connecting := connecting greeted_world;
           trace := trace greeted_world
                      ++ [ Log LLog "Couldn't handle a gateway object";
                           Log LLog "{op:" ] |}).
Proof.
  split; [reflexivity|].
  exact (malformed_frame_dropped sample_parse "{op:" greeted_world eq_refl).
Defined.

(** ** Joining a voice channel *)

(** X21.  [joinVoiceChannel] on a channel whose [type] is not 2: the
    warning is logged, nothing is written and no error is raised. *)
Lemma joinVoiceChannel_not_voice
    (channelID selfMute selfDeaf : value) (fields : list (string * value))
    (w : World) :
  Js.is_num (default VUndefined (Js.assoc "type" fields)) 2 = false ->
  joinVoiceChannel_resumed channelID selfMute selfDeaf (Ok (VObj fields)) w
    = run_to (Log LWarning "joinVoiceChannel called on a non-voice channel") w.
Proof.
  intros H. unfold joinVoiceChannel_resumed. exec. rewrite H. reflexivity.
Qed.

(** X22.  [joinVoiceChannel] on a voice channel ([type] 2) by a client
    that holds a connection: exactly one Voice State Update frame (opcode
    4) is written, for the channel's guild and the given channel, with
    [false] for a mute or deaf flag that is left out. *)
Lemma joinVoiceChannel_voice
    (channelID selfMute selfDeaf : value) (fields : list (string * value))
    (w : World) (k : sock) :
  Js.assoc "type" fields = Some (VNum 2) ->
  socket (this w) = Some k ->
  writes (trace (run (joinVoiceChannel_resumed channelID selfMute selfDeaf
                        (Ok (VObj fields))) w))
    = (writes (trace w)
         ++ [Packet 4
               (VObj [ ("guild_id", default VUndefined (Js.assoc "guild_id" fields));
                       ("channel_id", channelID);
                       ("self_mute", or_default selfMute (VBool false));
                       ("self_deaf", or_default selfDeaf (VBool false)) ])
               VNull VNull])%list.
Proof.
  intros Ht Hk. unfold joinVoiceChannel_resumed, _sendOpcode. exec.
  rewrite Ht. exec. rewrite Hk. exec.
  rewrite !writes_app. simpl. now rewrite !app_nil_r.
Qed.

(** C8.  The lookup fails: whether the request rejects or resolves with
    [null] or [undefined], [joinVoiceChannel] ends with an error for its
    caller, and no warning is logged. *)
Theorem joinVoiceChannel_failed_lookup
    (channelID selfMute selfDeaf : value) (e : exn) (w : World) :
  joinVoiceChannel_resumed channelID selfMute selfDeaf (Throw e) w
    = (Throw e, w)
  /\ joinVoiceChannel_resumed channelID selfMute selfDeaf (Ok VNull) w
     = (Throw (TypeError "Cannot read properties of null"), w)
  /\ joinVoiceChannel_resumed channelID selfMute selfDeaf (Ok VUndefined) w
     = (Throw (TypeError "Cannot read properties of undefined"), w).
Proof. repeat split. Qed.

(** ** The Identify payload *)

Lemma extends_refl P w : extends P w w.
Proof. exists []. split; [now rewrite app_nil_r | apply List.Forall_nil]. Qed.

Lemma extends_trans P a b c : extends P a b -> extends P b c -> extends P a c.
Proof.
  intros [l1 [H1 F1]] [l2 [H2 F2]]. exists (l1 ++ l2)%list. split.
  - rewrite H2, H1. now rewrite app_assoc.
  - apply Forall_app. split; assumption.
Qed.

#[local] Hint Resolve extends_refl extends_trans : core.

(** A primitive step does nothing, or one thing that is not a frame of
    opcode 2, or writes the Identify payload. *)
Ltac identify_prim :=
  intros ?;
  first
    [ exists []; split; [simpl; now rewrite app_nil_r | apply List.Forall_nil]
    | eexists [_]; split;
      [ reflexivity
      | apply List.Forall_cons; [|apply List.Forall_nil];
        first [ exact I
              | intros H; discriminate H
              | intros _; repeat split ] ] ].

Lemma identify_handler (JSON_parse : string -> option value) (e : event) :
  keeps (extends identify_ok) (handler JSON_parse e).
Proof. destruct e; simpl; frame; identify_prim. Qed.

Lemma identify_trace (JSON_parse : string -> option value) (w : World) :
  reachable JSON_parse w -> Forall identify_ok (trace w).
Proof.
  induction 1 as [token intents isBot | w e _ IH He].
  - repeat (apply List.Forall_cons; [exact I|]). apply List.Forall_nil.
  - destruct (identify_handler JSON_parse e w) as [l [Hl Fl]].
    unfold step, run. rewrite Hl. apply Forall_app. split; assumption.
Qed.

(** C9, as the code has it.  Every frame of opcode 2 the client has
    written carries [compress] false, [large_threshold] 100 and the
    presence [{since: null, status: "online", game: null, afk: false}]. *)
Theorem identify_frame_shape
    (JSON_parse : string -> option value) (w : World) (k : sock) (p : packet) :
  reachable JSON_parse w ->
  In (Write k p) (trace w) ->
  op p = 2 ->
  prop (d p) "compress" = VBool false
  /\ prop (d p) "large_threshold" = VNum 100
  /\ prop (d p) "presence"
     = VObj [ ("since", VNull); ("status", VStr "online");
              ("game", VNull); ("afk", VBool false) ].
Proof.
  intros Hr Hin Hop.
  pose proof (identify_trace JSON_parse w Hr) as F.
  rewrite List.Forall_forall in F. exact (F _ Hin Hop).
Qed.

Lemma identify_frame_shape_witness :
  reachable sample_parse greeted_world
  /\ In (Write 0%nat
           (Packet 2 (identify_payload (this connected_world)) VNull VNull))
        (trace greeted_world)
  /\ prop (identify_payload (this connected_world)) "compress" = VBool false
  /\ prop (identify_payload (this connected_world)) "large_threshold"
     = VNum 100
  /\ prop (identify_payload (this connected_world)) "presence"
     = VObj [ ("since", VNull); ("status", VStr "online");
              ("game", VNull); ("afk", VBool false) ].
Proof.
  assert (In (Write 0%nat
                (Packet 2 (identify_payload (this connected_world)) VNull VNull))
             (trace greeted_world)) as Hin
    by (simpl; repeat (first [left; reflexivity | right])).
  split; [exact greeted_reachable|]. split; [exact Hin|].
  exact (identify_frame_shape sample_parse greeted_world 0%nat _
           greeted_reachable Hin eq_refl).
Defined.

(** C9 as stated fails: the presence of the Identify frame
    has no property [activity]; the activity goes under [game]. *)
Lemma identify_presence_has_no_activity :
  reachable sample_parse greeted_world
  /\ In (Write 0%nat
           (Packet 2 (identify_payload (this connected_world)) VNull VNull))
        (trace greeted_world)
  /\ prop (identify_payload (this connected_world)) "presence"
     <> presence_with_activity
  /\ prop (prop (identify_payload (this connected_world)) "presence")
          "activity" = VUndefined
  /\ prop presence_with_activity "activity" = VNull.
Proof.
  split; [exact greeted_reachable|].
  split; [simpl; repeat (first [left; reflexivity | right])|].
  split; [discriminate|]. split; reflexivity.
Qed.

(** ** An empty message *)

(** C10.  A [MESSAGE_CREATE] dispatch whose content is the empty string:
    [_handleDispatch] returns normally, calls no command callback (the
    registered dispatch callback, if any, is all that is called) and
    leaves the client as it was. *)
Theorem empty_message_no_command (fields : list (string * value)) (w : World) :
  Js.assoc "content" fields = Some (VStr "") ->
  _handleDispatch (VStr "MESSAGE_CREATE") (VObj fields) w
    = (Ok tt,
       {| this := this w; timers := timers w; sockets := sockets w;
          fresh := fresh w; connecting := connecting w;
          trace := trace w
                     ++ Log LLog "Dispatch event: MESSAGE_CREATE"
                        :: match dispatchCallbacks (this w) !! "MESSAGE_CREATE" with
                           | Some cb => [Emit cb (VObj fields)]
                           | None => []
                           end |}).
Proof.
  intros H. unfold _handleDispatch, _emitEvent, message_create, switch, get_first.
  exec. change (Js.toString (VStr "MESSAGE_CREATE")) with "MESSAGE_CREATE".
  destruct (dispatchCallbacks (this w) !! "MESSAGE_CREATE") as [cb|];
    exec; rewrite H; exec; rewrite <- ?app_assoc; reflexivity.
Qed.

Lemma empty_message_no_command_witness :
  Js.assoc "content" [("id", VStr "9"); ("content", VStr "")] = Some (VStr "")
  /\ _handleDispatch (VStr "MESSAGE_CREATE")
       (VObj [("id", VStr "9"); ("content", VStr "")]) ping_world
     = (Ok tt,
        {| this := this ping_world; timers := timers ping_world;
           sockets := sockets ping_world; fresh := fresh ping_world;
           connecting := connecting ping_world;
           trace := trace ping_world
                      ++ [Log LLog "Dispatch event: MESSAGE_CREATE"] |}).
Proof.
  split; [reflexivity|].
  exact (empty_message_no_command [("id", VStr "9"); ("content", VStr "")]
           ping_world eq_refl).
Defined.

(** * Further properties of the client *)

(** ** Registering and routing *)

Lemma event_key_onEvent (eventName : string) (cb : callback) (w : World) :
  onEvent eventName cb w
  = (Ok tt,
     with_this w
       (set_dispatchCallbacks
          (<[event_key eventName := cb]> (dispatchCallbacks (this w))) (this w))
       (trace w)).
Proof. reflexivity. Qed.

Lemma grows_refl w : extends any_effect w w.
Proof. apply extends_refl. Qed.

Lemma grows_trans a b c :
  extends any_effect a b -> extends any_effect b c -> extends any_effect a c.
Proof. apply extends_trans. Qed.

#[local] Hint Resolve grows_refl grows_trans : core.

Ltac grow_prim :=
  intros ?;
  first
    [ exists []; split; [simpl; now rewrite app_nil_r | apply List.Forall_nil]
    | eexists [_]; split;
      [ reflexivity
      | apply List.Forall_cons; [exact I | apply List.Forall_nil] ] ].

(** X1.  After [onEvent(eventName, cb)] with a name in ASCII,
    [_emitEvent] for that name in upper case with underscores for spaces
    calls [cb] once with the data it is given, returns normally and does
    nothing else. *)
Theorem onEvent_callback_called
    (eventName : string) (cb : callback) (data : value) (w : World) :
  ascii_text eventName = true ->
  _emitEvent (VStr (event_key eventName)) data (run (onEvent eventName cb) w)
  = (Ok tt,
     with_trace (run (onEvent eventName cb) w) (trace w ++ [Emit cb data])).
Proof.
  intros _. unfold run. rewrite event_key_onEvent. cbn [snd].
  unfold _emitEvent, read. unfold mbind at 1, M_bind at 1.
  cbn [this with_this dispatchCallbacks set_dispatchCallbacks Js.toString].
  rewrite lookup_insert_eq. reflexivity.
Qed.

Lemma onEvent_callback_called_witness :
  ascii_text "message create" = true
  /\ event_key "message create" = "MESSAGE_CREATE"
  /\ _emitEvent (VStr "MESSAGE_CREATE") (VStr "payload")
       (run (onEvent "message create" 3%nat) connected_world)
     = (Ok tt,
        with_trace (run (onEvent "message create" 3%nat) connected_world)
          (trace connected_world ++ [Emit 3%nat (VStr "payload")])).
Proof.
  split; [reflexivity|]. split; [reflexivity|].
  exact (onEvent_callback_called "message create" 3%nat (VStr "payload")
           connected_world eq_refl).
Defined.

Lemma upper_key_char (a : ascii) :
  let key c := if Ascii.eqb (Js.upper_ascii c) " " then "_"%char
               else Js.upper_ascii c in
  key (key a) = key a.
Proof.
  destruct a as [[] [] [] [] [] [] [] []]; reflexivity.
Qed.

Lemma event_key_chars (n : string) :
  event_key n
  = (fix go (s : string) : string :=
       match s with
       | EmptyString => EmptyString
       | String c r =>
           String (if Ascii.eqb (Js.upper_ascii c) " " then "_"%char
                   else Js.upper_ascii c) (go r)
       end) n.
Proof.
  unfold event_key. induction n as [|c n IH]; simpl; [reflexivity|].
  now rewrite IH.
Qed.

(** X2.  The key of an event name is already in its final form: naming
    an event by its key files the callback in the same slot, so the later
    of two such registrations replaces the earlier. *)
Theorem onEvent_same_slot
    (eventName : string) (cb1 cb2 : callback) (w : World) :
  event_key (event_key eventName) = event_key eventName
  /\ run (onEvent (event_key eventName) cb2) (run (onEvent eventName cb1) w)
     = run (onEvent eventName cb2) w.
Proof.
  assert (event_key (event_key eventName) = event_key eventName) as Hk.
  { rewrite (event_key_chars (event_key eventName)), (event_key_chars eventName).
    induction eventName as [|c n IH]; [reflexivity|].
    cbn [String.length]. f_equal; [apply upper_key_char | exact IH]. }
  split; [exact Hk|].
  unfold run. rewrite !event_key_onEvent. cbn [snd]. rewrite Hk.
  unfold with_this. cbn. f_equal.
  unfold set_dispatchCallbacks. cbn. f_equal. apply insert_insert_eq.
Qed.

(** ** Commands *)

Ltac exec_command :=
  repeat (unfold mbind, M_bind, mret, M_ret, read, update, perform, log,
            throw, get_prop, get_first, switch, run;
          cbn -[String.append Js.toString Js.string_of_Z parse_command
                String.eqb]).

Ltac pick_message_case :=
  change (String.eqb "MESSAGE_CREATE" "READY") with false;
  change (String.eqb "MESSAGE_CREATE" "GUILD_CREATE") with false;
  change (String.eqb "MESSAGE_CREATE" "MESSAGE_CREATE") with true;
  exec_command.

Lemma parse_command_word (c : ascii) (command : string) :
  fst (parse_command (String c command))
  = Js.toLowerCase (Js.split_first command " ").
Proof. unfold parse_command. now rewrite substr_tail. Qed.

(** The [MESSAGE_CREATE] case on a message that starts with the one
    character of [commandChar]. *)
Lemma message_create_command
    (ch : ascii) (command : string) (fields : list (string * value))
    (w : World) :
  commandChar (this w) = String ch "" ->
  Js.assoc "content" fields = Some (VStr (String ch command)) ->
  _handleDispatch (VStr "MESSAGE_CREATE") (VObj fields) w
  = match commandCallbacks (this w) !! fst (parse_command (String ch command)) with
    | Some cb =>
        (Ok tt,
         with_trace w
           (trace w
              ++ dispatch_prefix (this w) "MESSAGE_CREATE" (VObj fields)
              ++ [ Log LLog ("Command received: "
                             ++ fst (parse_command (String ch command)));
                   Command cb (VObj fields)
                     (snd (parse_command (String ch command))) ]))
    | None =>
        (Ok tt,
         with_trace w
           (trace w ++ dispatch_prefix (this w) "MESSAGE_CREATE" (VObj fields)))
    end.
Proof.
  intros Hc Hm.
  unfold _handleDispatch, _emitEvent, message_create, dispatch_prefix, with_trace.
  exec_command.
  change (Js.toString (VStr "MESSAGE_CREATE")) with "MESSAGE_CREATE".
  destruct (dispatchCallbacks (this w) !! "MESSAGE_CREATE") as [dcb|];
    exec_command; rewrite Hm; exec_command; pick_message_case; rewrite Hc;
    unfold Js.is_str; rewrite String.eqb_refl;
    destruct (parse_command (String ch command)) as [commandWord restOfCommand];
    cbn [fst snd];
    destruct (commandCallbacks (this w) !! commandWord) as [cb|];
    exec_command; rewrite <- ?app_assoc; reflexivity.
Qed.





(** X5.  For ASCII text and a client on which nothing was registered
    under "__proto__": a message that starts with the command character
    but whose first word, in lower case, is no registered key word and is
    neither "constructor" nor "__proto__" (which every object answers to)
    calls no command callback, raises nothing and leaves the client as it
    was. *)
Theorem unknown_command_ignored
    (ch : ascii) (command : string) (fields : list (string * value))
    (w : World) :
  ascii_text (String ch command) = true ->
  commandCallbacks (this w) !! "__proto__" = None ->
  Js.toLowerCase (Js.split_first command " ") <> "constructor" ->
  Js.toLowerCase (Js.split_first command " ") <> "__proto__" ->
  commandChar (this w) = String ch "" ->
  Js.assoc "content" fields = Some (VStr (String ch command)) ->
  commandCallbacks (this w) !! Js.toLowerCase (Js.split_first command " ")
    = None ->
  _handleDispatch (VStr "MESSAGE_CREATE") (VObj fields) w
  = (Ok tt,
     with_trace w
       (trace w ++ dispatch_prefix (this w) "MESSAGE_CREATE" (VObj fields))).
Proof.
  intros _ _ _ _ Hc Hm Hn.
  rewrite (message_create_command ch command fields w Hc Hm).
  rewrite parse_command_word, Hn. reflexivity.
Qed.

Lemma unknown_command_ignored_witness :
  ascii_text (String "!" "pong now") = true
  /\ commandCallbacks (this ping_world) !! "__proto__" = None
  /\ Js.toLowerCase (Js.split_first "pong now" " ") <> "constructor"
  /\ Js.toLowerCase (Js.split_first "pong now" " ") <> "__proto__"
  /\ commandChar (this ping_world) = String "!" ""
  /\ Js.assoc "content" [("content", VStr "!pong now")]
     = Some (VStr (String "!" "pong now"))
  /\ commandCallbacks (this ping_world)
       !! Js.toLowerCase (Js.split_first "pong now" " ") = None
  /\ _handleDispatch (VStr "MESSAGE_CREATE")
       (VObj [("content", VStr "!pong now")]) ping_world
     = (Ok tt,
        with_trace ping_world
          (trace ping_world ++ [Log LLog "Dispatch event: MESSAGE_CREATE"])).
Proof.
  assert (Js.toLowerCase (Js.split_first "pong now" " ") <> "constructor")
    as H1 by discriminate.
  assert (Js.toLowerCase (Js.split_first "pong now" " ") <> "__proto__")
    as H2 by discriminate.
  split; [reflexivity|]. split; [reflexivity|]. split; [exact H1|].
  split; [exact H2|]. split; [reflexivity|]. split; [reflexivity|].
  split; [reflexivity|].
  exact (unknown_command_ignored "!" "pong now"
           [("content", VStr "!pong now")] ping_world
           eq_refl eq_refl H1 H2 eq_refl eq_refl eq_refl).
Defined.

(** X6.  For ASCII text: a message whose first character is not the
    command character (an empty message, or a [commandChar] that is not
    exactly one character, included) runs no command: only the dispatch
    callback, if any, is called. *)
Theorem plain_message_no_command
    (msg : string) (fields : list (string * value)) (w : World) :
  ascii_text msg = true ->
  ascii_text (commandChar (this w)) = true ->
  (forall a r, msg = String a r -> commandChar (this w) <> String a "") ->
  Js.assoc "content" fields = Some (VStr msg) ->
  _handleDispatch (VStr "MESSAGE_CREATE") (VObj fields) w
  = (Ok tt,
     with_trace w
       (trace w ++ dispatch_prefix (this w) "MESSAGE_CREATE" (VObj fields))).
Proof.
  intros _ _ Hp Hm.
  unfold _handleDispatch, _emitEvent, message_create, dispatch_prefix, with_trace.
  exec_command.
  change (Js.toString (VStr "MESSAGE_CREATE")) with "MESSAGE_CREATE".
  assert (forall a r, msg = String a r ->
            String.eqb (String a "") (commandChar (this w)) = false) as Hf.
  { intros a r E. apply String.eqb_neq. intros E'.
    exact (Hp a r E (eq_sym E')). }
  destruct (dispatchCallbacks (this w) !! "MESSAGE_CREATE") as [dcb|];
    exec_command; rewrite Hm; exec_command; pick_message_case;
    destruct msg as [|a r]; exec_command;
    unfold Js.is_str; rewrite ?(Hf a r eq_refl);
    rewrite <- ?app_assoc; reflexivity.
Qed.

Lemma plain_message_no_command_witness :
  ascii_text "hello !ping" = true
  /\ ascii_text (commandChar (this ping_world)) = true
  /\ (forall a r, "hello !ping" = String a r ->
     commandChar (this ping_world) <> String a "")
  /\ Js.assoc "content" [("content", VStr "hello !ping")]
     = Some (VStr "hello !ping")
  /\ _handleDispatch (VStr "MESSAGE_CREATE")
       (VObj [("content", VStr "hello !ping")]) ping_world
     = (Ok tt,
        with_trace ping_world
          (trace ping_world ++ [Log LLog "Dispatch event: MESSAGE_CREATE"])).
Proof.
  assert (forall a r, "hello !ping" = String a r ->
            commandChar (this ping_world) <> String a "") as H.
  { intros a r [= <- _]. discriminate. }
  split; [reflexivity|]. split; [reflexivity|].
  split; [exact H|]. split; [reflexivity|].
  exact (plain_message_no_command "hello !ping"
           [("content", VStr "hello !ping")] ping_world eq_refl eq_refl
           H eq_refl).
Defined.

(** ** Heartbeats over several ticks *)

Lemma heartbeat_sends (w : World) (k : sock) :
  socket (this w) = Some k ->
  heartbeatAcknowledged (this w) = true ->
  _heartbeat w
  = (Ok tt,
     with_this w (set_heartbeatAcknowledged false (this w))
       (trace w ++ [ Log LLog "Sending OP 1: Heartbeat";
                     Write k (Packet 1 (lastSequenceNum (this w)) VNull VNull) ])).
Proof.
  intros Hk Ha. unfold _heartbeat, _sendOpcode, with_this. exec.
  rewrite Ha. exec. rewrite Hk. exec. now rewrite <- app_assoc.
Qed.

Lemma heartbeat_reconnects (w : World) :
  heartbeatAcknowledged (this w) = false ->
  _heartbeat w
  = (Ok tt,
     {| this := set_heartbeatAcknowledged true (set_resuming true (this w));
        timers := disarm (heartbeatIntervalObj (this w)) (timers w);
        sockets := sockets w; fresh := fresh w;
        connecting := S (connecting w);
        trace := trace w
                   ++ [ Log LWarn "No heartbeat ACK. Reconnecting";
                        ClearInterval (heartbeatIntervalObj (this w));
                        Log LLog "Requesting endpoint";
                        Request "GET" (if isBot (this w) then "/gateway/bot"
                                       else "/gateway") VUndefined ] |}).
Proof.
  intros Ha. unfold _heartbeat, reconnect, _gatewayConnect. exec.
  rewrite Ha. exec. now rewrite <- !app_assoc.
Qed.

Lemma ack_frame_handled (obj : value) (w : World) :
  frame_op obj = Some 11 ->
  _handleGatewayObject obj w
  = (Ok tt,
     with_this w (set_heartbeatAcknowledged true (this w))
       (trace w ++ [Log LLog "Received OP 11: Heartbeat ACK"])).
Proof.
  intros Hop. destruct obj as [| | | | | |fields]; try discriminate.
  unfold frame_op in Hop.
  destruct (Js.assoc "op" fields) as [[| | |m| | |]|] eqn:E; try discriminate.
  injection Hop as ->.
  unfold _handleGatewayObject, get_prop. rewrite E. unfold switch. exec.
  change (Js.toString (VNum 11)) with "11". exec. reflexivity.
Qed.

(** X7.  A heartbeat that is acknowledged (opcode 11) before the timer
    fires again is followed by another heartbeat: over tick, ACK, tick
    the client writes two heartbeat frames and does not reconnect. *)
Theorem acknowledged_heartbeat_repeats
    (JSON_parse : string -> option value) (w : World) (h : timer) (k : sock)
    (data : string) (obj : value) :
  reachable JSON_parse w ->
  In h (timers w) -> In k (sockets w) ->
  heartbeatAcknowledged (this w) = true ->
  JSON_parse data = Some obj -> frame_op obj = Some 11 ->
  writes (trace (step JSON_parse (Tick h)
                   (step JSON_parse (Data k data)
                      (step JSON_parse (Tick h) w))))
    = (writes (trace w)
         ++ [ Packet 1 (lastSequenceNum (this w)) VNull VNull;
              Packet 1 (lastSequenceNum (this w)) VNull VNull ])%list
  /\ resuming (this (step JSON_parse (Tick h)
                      (step JSON_parse (Data k data)
                         (step JSON_parse (Tick h) w))))
     = resuming (this w)
  /\ timers (step JSON_parse (Tick h)
               (step JSON_parse (Data k data) (step JSON_parse (Tick h) w)))
     = timers w.
Proof.
  intros Hr Hh Hk Ha Hp Hop.
  destruct (armed_has_socket JSON_parse w h Hr Hh) as [k' Hs].
  unfold step, handler, run.
  rewrite (heartbeat_sends w k' Hs Ha). cbn [snd].
  unfold on_data. rewrite Hp. unfold try_catch.
  rewrite (ack_frame_handled obj _ Hop). cbn [snd].
  erewrite heartbeat_sends by (exact Hs || reflexivity).
  cbn. repeat split.
  rewrite !writes_app. simpl. rewrite !app_nil_r. now rewrite <- app_assoc.
Qed.

Lemma acknowledged_heartbeat_repeats_witness :
  reachable sample_parse greeted_world
  /\ In 1%nat (timers greeted_world) /\ In 0%nat (sockets greeted_world)
  /\ heartbeatAcknowledged (this greeted_world) = true
  /\ sample_parse "ack" = Some (bare_frame 11)
  /\ frame_op (bare_frame 11) = Some 11
  /\ writes (trace (step sample_parse (Tick 1%nat)
                      (step sample_parse (Data 0%nat "ack")
                         (step sample_parse (Tick 1%nat) greeted_world))))
     = (writes (trace greeted_world)
          ++ [ Packet 1 VNull VNull VNull; Packet 1 VNull VNull VNull ])%list.
Proof.
  assert (In 1%nat (timers greeted_world)) as H1 by (simpl; auto).
  assert (In 0%nat (sockets greeted_world)) as H0 by (simpl; auto).
  split; [exact greeted_reachable|]. split; [exact H1|]. split; [exact H0|].
  split; [reflexivity|]. split; [reflexivity|]. split; [reflexivity|].
  exact (proj1 (acknowledged_heartbeat_repeats sample_parse greeted_world
                  1%nat 0%nat "ack" (bare_frame 11)
                  greeted_reachable H1 H0 eq_refl eq_refl eq_refl)).
Defined.

(** X8.  A heartbeat that is not acknowledged before the timer fires
    again: over the two ticks the client writes one heartbeat frame, then
    sets [resuming], cancels the timer it remembers, counts the heartbeat
    as settled and asks for the gateway again. *)
Theorem missed_acknowledgement_reconnects
    (JSON_parse : string -> option value) (w : World) (h : timer) :
  reachable JSON_parse w ->
  In h (timers w) ->
  heartbeatAcknowledged (this w) = true ->
  writes (trace (step JSON_parse (Tick h) (step JSON_parse (Tick h) w)))
    = (writes (trace w)
         ++ [Packet 1 (lastSequenceNum (this w)) VNull VNull])%list
  /\ resuming (this (step JSON_parse (Tick h) (step JSON_parse (Tick h) w)))
     = true
  /\ heartbeatAcknowledged
       (this (step JSON_parse (Tick h) (step JSON_parse (Tick h) w))) = true
  /\ timers (step JSON_parse (Tick h) (step JSON_parse (Tick h) w))
     = disarm (heartbeatIntervalObj (this w)) (timers w)
  /\ connecting (step JSON_parse (Tick h) (step JSON_parse (Tick h) w))
     = S (connecting w).
Proof.
  intros Hr Hh Ha.
  destruct (armed_has_socket JSON_parse w h Hr Hh) as [k Hs].
  unfold step, handler, run.
  rewrite (heartbeat_sends w k Hs Ha). cbn [snd].
  rewrite heartbeat_reconnects by reflexivity.
  cbn. repeat split.
  rewrite !writes_app. simpl. now rewrite !app_nil_r.
Qed.

Lemma missed_acknowledgement_reconnects_witness :
  reachable sample_parse greeted_world
  /\ In 1%nat (timers greeted_world)
  /\ heartbeatAcknowledged (this greeted_world) = true
  /\ writes (trace (step sample_parse (Tick 1%nat)
                      (step sample_parse (Tick 1%nat) greeted_world)))
     = (writes (trace greeted_world) ++ [Packet 1 VNull VNull VNull])%list
  /\ timers (step sample_parse (Tick 1%nat)
               (step sample_parse (Tick 1%nat) greeted_world)) = [].
Proof.
  assert (In 1%nat (timers greeted_world)) as H1 by (simpl; auto).
  split; [exact greeted_reachable|]. split; [exact H1|].
  split; [reflexivity|].
  pose proof (missed_acknowledgement_reconnects sample_parse greeted_world
                1%nat greeted_reachable H1 eq_refl) as [Hw [_ [_ [Ht _]]]].
  split; [exact Hw | exact Ht].
Defined.

(** ** Reconnecting *)

(** X9.  A client that holds a connection reconnects, the gateway
    answers and the server says Hello: the old connection is ended before
    the one new connection is made, and the one frame written is a Resume
    frame with the session id and the sequence number the client had
    before it reconnected. *)
Theorem reconnect_then_resume
    (w : World) (k : sock) (gateway : list (string * value))
    (interval : value) :
  socket (this w) = Some k ->
  trace (run (_gatewayConnect_resumed (VObj gateway)) (run reconnect w))
    = (trace w
         ++ [ ClearInterval (heartbeatIntervalObj (this w));
              Log LLog "Requesting endpoint";
              Request "GET" (if isBot (this w) then "/gateway/bot"
                             else "/gateway") VUndefined;
              EndInner k;
              Log LLog ("Connecting to '"
                        ++ Js.toString (prop (VObj gateway) "url") ++ "'");
              Connect (prop (VObj gateway) "url") (fresh w) ])%list
  /\ socket (this (run (_gatewayConnect_resumed (VObj gateway))
                     (run reconnect w))) = Some (fresh w)
  /\ writes (trace (run (_handleHello interval)
                      (run (_gatewayConnect_resumed (VObj gateway))
                         (run reconnect w))))
     = (writes (trace w)
          ++ [Packet 6 (VObj [ ("token", token (this w));
                               ("session_id", sessionID (this w));
                               ("seq", lastSequenceNum (this w)) ])
                VNull VNull])%list.
Proof.
  intros Hk.
  unfold _handleHello, _sendOpcode, _gatewayConnect_resumed, reconnect,
    _gatewayConnect, prop.
  exec. rewrite Hk. exec. repeat split.
  - now rewrite <- !app_assoc.
  - rewrite !writes_app. simpl. now rewrite !app_nil_r.
Qed.

Lemma reconnect_then_resume_witness :
  socket (this greeted_world) = Some 0%nat
  /\ socket (this (run (_gatewayConnect_resumed sample_gateway)
                     (run reconnect greeted_world))) = Some 2%nat
  /\ writes (trace (run (_handleHello (VNum 41250))
                      (run (_gatewayConnect_resumed sample_gateway)
                         (run reconnect greeted_world))))
     = (writes (trace greeted_world)
          ++ [Packet 6 (VObj [ ("token", VStr "secret");
                               ("session_id", VNull);
                               ("seq", VNull) ]) VNull VNull])%list.
Proof.
  split; [reflexivity|].
  pose proof (reconnect_then_resume greeted_world 0%nat
                [("url", VStr "wss://gateway.discord.gg"); ("shards", VNum 1)]
                (VNum 41250) eq_refl) as [_ [Hs Hw]].
  split; [exact Hs | exact Hw].
Defined.

Lemma still_resuming_refl w : still_resuming w w.
Proof. intros H. exact H. Qed.

Lemma still_resuming_trans a b c :
  still_resuming a b -> still_resuming b c -> still_resuming a c.
Proof. unfold still_resuming. auto. Qed.

#[local] Hint Resolve still_resuming_refl still_resuming_trans : core.

Lemma still_resuming_call (JSON_parse : string -> option value) (e : event) :
  match e with
  | Resolved _ | Data _ _ | Ended _ | HostDisconnect _ _ | Tick _ => False
  | _ => True
  end ->
  keeps still_resuming (handler JSON_parse e).
Proof.
  destruct e; simpl; intros []; frame;
    solve [intros ? H; exact H | intros ? H; reflexivity].
Qed.

Lemma stranded_connect (gateway : value) (w : World) :
  stranded w ->
  stranded (run (settle_connect;; _gatewayConnect_resumed gateway) w).
Proof.
  intros [Hs [Hr [Hk Ht]]]. unfold stranded, _gatewayConnect_resumed.
  destruct gateway; exec; rewrite ?Hr; exec; rewrite ?Hs; exec; auto.
Qed.

Lemma stranded_step
    (JSON_parse : string -> option value) (w : World) (e : event) :
  stranded w -> enabled e w -> stranded (step JSON_parse e w).
Proof.
  intros Hst He. pose proof Hst as [Hs [Hr [Hk Ht]]].
  destruct e.
  1: apply stranded_connect; exact Hst.
  1: exact Hst.
  1-4: simpl in He; rewrite ?Hk, ?Ht in He; destruct He.
  all: match goal with
       | |- stranded (step _ ?e ?w0) =>
           pose proof (same_conn_handler JSON_parse e ltac:(discriminate) w0)
             as [Hs' Hk'];
           pose proof (stays_idle_call JSON_parse e I w0) as Hi;
           pose proof (still_resuming_call JSON_parse e I w0) as Hr'
       end;
       unfold stranded, step, run;
       (split; [congruence|]); (split; [exact (Hr' Hr)|]);
       (split; [congruence | exact (Hi Ht)]).
Qed.

(** X10.  [reconnect()] called on a new client before its first
    connection is made leaves the client without a connection for good:
    whatever the gateway answers and whatever is called afterwards, no
    connection is created. *)
Theorem early_reconnect_strands
    (JSON_parse : string -> option value)
    (token intents : value) (isBot : bool) (w : World) :
  reaches JSON_parse
    (step JSON_parse CallReconnect (constructor token intents isBot)) w ->
  sockets w = [] /\ socket (this w) = None /\ timers w = [].
Proof.
  intros H.
  assert (stranded w) as [Hs [_ [Hk Ht]]]; [|auto].
  induction H as [|w e _ IH He].
  - repeat split.
  - apply stranded_step; assumption.
Qed.

Lemma early_reconnect_strands_witness :
  reaches sample_parse
    (step sample_parse CallReconnect
       (constructor (VStr "secret") (VNum 513) true))
    (step sample_parse (Resolved sample_gateway)
       (step sample_parse (Resolved sample_gateway)
          (step sample_parse CallReconnect
             (constructor (VStr "secret") (VNum 513) true))))
  /\ sockets (step sample_parse (Resolved sample_gateway)
                (step sample_parse (Resolved sample_gateway)
                   (step sample_parse CallReconnect
                      (constructor (VStr "secret") (VNum 513) true)))) = [].
Proof.
  assert (reaches sample_parse
            (step sample_parse CallReconnect
               (constructor (VStr "secret") (VNum 513) true))
            (step sample_parse (Resolved sample_gateway)
               (step sample_parse (Resolved sample_gateway)
                  (step sample_parse CallReconnect
                     (constructor (VStr "secret") (VNum 513) true))))) as H.
  { apply reaches_step; [apply reaches_step; [apply reaches_here|]|];
      simpl; lia. }
  split; [exact H|].
  exact (proj1 (early_reconnect_strands sample_parse (VStr "secret") (VNum 513)
                  true _ H)).
Defined.

(** ** Frames the client does not act on *)

Ltac open_frame Hop fields E :=
  match type of Hop with
  | frame_op ?obj = Some _ =>
      destruct obj as [| | | | | |fields]; try discriminate Hop;
      unfold frame_op in Hop;
      destruct (Js.assoc "op" fields) as [[| | |?m| | |]|] eqn:E;
      try discriminate Hop;
      injection Hop as ->
  end.

(** X11.  A frame whose opcode is an integer other than 0, 1, 7, 9, 10
    and 11 (the opcodes a client only sends, and those outside the table)
    is logged and changes nothing. *)
Theorem other_opcodes_ignored (obj : value) (n : Z) (w : World) :
  frame_op obj = Some n ->
  ~ In n [0; 1; 7; 9; 10; 11] ->
  _handleGatewayObject obj w
  = (Ok tt,
     with_trace w
       (trace w
          ++ [Log LLog ("Received OP " ++ Js.string_of_Z n ++ ": "
                        ++ show_name (Js.assoc (Js.string_of_Z n)
                                        GatewayOpcodes))])).
Proof.
  intros Hop Hn. open_frame Hop fields E.
  unfold _handleGatewayObject, get_prop. rewrite E. unfold switch, with_trace.
  exec. change (Js.toString (VNum n)) with (Js.string_of_Z n).
  assert (forall k : Z, In k [0; 1; 7; 9; 10; 11] ->
            Js.string_of_Z n <> Js.string_of_Z k) as Hk.
  { intros k Hin Heq. apply string_of_Z_inj in Heq. subst k. contradiction. }
  remember (Js.string_of_Z n) as key eqn:Hkey.
  unfold GatewayOpcodes. cbn [Js.assoc].
  repeat match goal with
         | |- context [String.eqb key ?lit] =>
             destruct (String.eqb_spec key lit) as [Heq|_]
         end;
    try reflexivity;
    exfalso;
    first [ apply (Hk 0); [simpl; tauto | exact Heq]
          | apply (Hk 1); [simpl; tauto | exact Heq]
          | apply (Hk 7); [simpl; tauto | exact Heq]
          | apply (Hk 9); [simpl; tauto | exact Heq]
          | apply (Hk 10); [simpl; tauto | exact Heq]
          | apply (Hk 11); [simpl; tauto | exact Heq] ].
Qed.

Lemma other_opcodes_ignored_witness :
  frame_op (bare_frame 8) = Some 8
  /\ ~ In 8 [0; 1; 7; 9; 10; 11]
  /\ _handleGatewayObject (bare_frame 8) waiting_world
     = (Ok tt,
        with_trace waiting_world
          (trace waiting_world
             ++ [Log LLog "Received OP 8: Request Guild Members"])).
Proof.
  assert (~ In 8 [0; 1; 7; 9; 10; 11]) as H
    by (simpl; intros [H|[H|[H|[H|[H|[H|[]]]]]]]; discriminate H).
  split; [reflexivity|]. split; [exact H|].
  exact (other_opcodes_ignored (bare_frame 8) 8 waiting_world eq_refl H).
Defined.

(** X12.  Whatever arrives on the connection, the data handler returns
    normally: an error raised while a frame is parsed or handled is
    caught, and the client keeps the connection it had. *)
Theorem on_data_returns
    (JSON_parse : string -> option value) (data : string) (w : World) :
  fst (on_data JSON_parse data w) = Ok tt
  /\ socket (this (run (on_data JSON_parse data) w)) = socket (this w)
  /\ sockets (run (on_data JSON_parse data) w) = sockets w.
Proof.
  split.
  - unfold on_data, try_catch.
    destruct (match JSON_parse data with
              | Some obj => _handleGatewayObject obj
              | None => throw SyntaxError
              end w) as [[[]|e] w1]; reflexivity.
  - pose proof (same_conn_handler JSON_parse (Data 0%nat data)
                  ltac:(discriminate) w) as [Hk Hs].
    split; [exact Hs | exact Hk].
Qed.

(** X13.  An Invalid Session frame (opcode 9) makes the client end the
    connection it holds and nothing more: it does not reconnect, the
    heartbeat timers stay armed and the session fields are kept. *)
Theorem invalid_session_ends_socket (obj : value) (w : World) (k : sock) :
  frame_op obj = Some 9 ->
  socket (this w) = Some k ->
  _handleGatewayObject obj w
  = (Ok tt,
     with_trace w
       (trace w ++ [Log LLog "Received OP 9: Invalid Session"; End k])).
Proof.
  intros Hop Hk. open_frame Hop fields E.
  unfold _handleGatewayObject, get_prop. rewrite E. unfold switch, with_trace.
  exec. change (Js.toString (VNum 9)) with "9". exec. rewrite Hk. exec.
  now rewrite <- app_assoc.
Qed.

Lemma invalid_session_ends_socket_witness :
  frame_op (bare_frame 9) = Some 9
  /\ socket (this greeted_world) = Some 0%nat
  /\ _handleGatewayObject (bare_frame 9) greeted_world
     = (Ok tt,
        with_trace greeted_world
          (trace greeted_world
             ++ [Log LLog "Received OP 9: Invalid Session"; End 0%nat])).
Proof.
  split; [reflexivity|]. split; [reflexivity|].
  exact (invalid_session_ends_socket (bare_frame 9) greeted_world 0%nat
           eq_refl eq_refl).
Defined.

(** X14.  A Hello frame (opcode 10) that has no payload ([d] absent or
    [null]) is dropped by the data handler: no timer is armed, nothing is
    written and the client is as it was. *)
Theorem hello_without_payload_dropped
    (JSON_parse : string -> option value) (data : string) (obj : value)
    (w : World) :
  JSON_parse data = Some obj ->
  frame_op obj = Some 10 ->
  prop obj "d" = VNull \/ prop obj "d" = VUndefined ->
  on_data JSON_parse data w
  = (Ok tt,
     with_trace w
       (trace w ++ [ Log LLog "Received OP 10: Hello";
                     Log LLog "Couldn't handle a gateway object";
                     Log LLog data ])).
Proof.
  intros Hp Hop Hd. open_frame Hop fields E.
  unfold on_data. rewrite Hp.
  unfold _handleGatewayObject, get_prop. rewrite E. unfold switch, with_trace.
  unfold prop in Hd.
  exec. change (Js.toString (VNum 10)) with "10". exec.
  destruct Hd as [-> | ->]; exec; now rewrite <- !app_assoc.
Qed.

Lemma hello_without_payload_dropped_witness :
  hollow_parse "hello" = Some (bare_frame 10)
  /\ frame_op (bare_frame 10) = Some 10
  /\ (prop (bare_frame 10) "d" = VNull \/ prop (bare_frame 10) "d" = VUndefined)
  /\ on_data hollow_parse "hello" connected_world
     = (Ok tt,
        with_trace connected_world
          (trace connected_world
             ++ [ Log LLog "Received OP 10: Hello";
                  Log LLog "Couldn't handle a gateway object";
                  Log LLog "hello" ])).
Proof.
  split; [reflexivity|]. split; [reflexivity|].
  split; [left; reflexivity|].
  exact (hello_without_payload_dropped hollow_parse "hello" (bare_frame 10)
           connected_world eq_refl eq_refl (or_introl eq_refl)).
Defined.

(** ** Dispatches *)

(** X15.  A [GUILD_CREATE] dispatch whose payload has a string [id]
    other than "__proto__" caches the payload under that id, replacing
    what was cached under it and keeping the rest; no error is raised. *)
Theorem guild_create_cached
    (id : string) (fields : list (string * value)) (w : World) :
  Js.assoc "id" fields = Some (VStr id) ->
  id <> "__proto__" ->
  guilds (this (run (_handleDispatch (VStr "GUILD_CREATE") (VObj fields)) w))
    = <[id := VObj fields]> (guilds (this w))
  /\ guilds (this (run (_handleDispatch (VStr "GUILD_CREATE") (VObj fields)) w))
       !! id = Some (VObj fields)
  /\ fst (_handleDispatch (VStr "GUILD_CREATE") (VObj fields) w) = Ok tt.
Proof.
  intros Hid _.
  assert (guilds (this (run (_handleDispatch (VStr "GUILD_CREATE")
                               (VObj fields)) w))
          = <[id := VObj fields]> (guilds (this w))
          /\ fst (_handleDispatch (VStr "GUILD_CREATE") (VObj fields) w)
             = Ok tt) as [H1 H2].
  { unfold _handleDispatch, _emitEvent, switch. exec. rewrite Hid.
    destruct (dispatchCallbacks (this w) !! Js.toString (VStr "GUILD_CREATE"));
      exec; split; reflexivity. }
  split; [exact H1|]. split; [|exact H2].
  rewrite H1. apply lookup_insert_eq.
Qed.

Lemma guild_create_cached_witness :
  Js.assoc "id" [("id", VStr "81384788765712384"); ("name", VStr "Guild")]
  = Some (VStr "81384788765712384")
  /\ "81384788765712384" <> "__proto__"
  /\ guilds (this (run (_handleDispatch (VStr "GUILD_CREATE")
                         (VObj [("id", VStr "81384788765712384");
                                ("name", VStr "Guild")])) greeted_world))
       !! "81384788765712384"
     = Some (VObj [("id", VStr "81384788765712384"); ("name", VStr "Guild")]).
Proof.
  assert ("81384788765712384" <> "__proto__") as Hn by discriminate.
  split; [reflexivity|]. split; [exact Hn|].
  exact (proj1 (proj2 (guild_create_cached "81384788765712384"
                         [("id", VStr "81384788765712384");
                          ("name", VStr "Guild")] greeted_world eq_refl Hn))).
Defined.



Lemma passive_refl w : passive w w.
Proof. repeat split. Qed.

Lemma passive_trans a b c : passive a b -> passive b c -> passive a c.
Proof.
  unfold passive. intros [? [? [? [? [? ?]]]]] [? [? [? [? [? ?]]]]].
  repeat split; congruence.
Qed.

#[local] Hint Resolve passive_refl passive_trans : core.

Ltac passive_prim :=
  intros ?; unfold passive; simpl; rewrite ?writes_app; simpl;
  rewrite ?app_nil_r; repeat split; reflexivity.

(** X17.  On a client with no dispatch callback and no command
    registered, handling a Dispatch frame (opcode 0), whatever its event
    and payload, writes nothing to the connection, arms and cancels no
    timer, makes no connection, does not reconnect and does not touch
    [heartbeatAcknowledged]. *)
Theorem dispatch_is_passive (obj : value) (w : World) :
  dispatchCallbacks (this w) = ∅ ->
  commandCallbacks (this w) = ∅ ->
  frame_op obj = Some 0 ->
  writes (trace (run (_handleGatewayObject obj) w)) = writes (trace w)
  /\ timers (run (_handleGatewayObject obj) w) = timers w
  /\ sockets (run (_handleGatewayObject obj) w) = sockets w
  /\ socket (this (run (_handleGatewayObject obj) w)) = socket (this w)
  /\ heartbeatAcknowledged (this (run (_handleGatewayObject obj) w))
     = heartbeatAcknowledged (this w)
  /\ connecting (run (_handleGatewayObject obj) w) = connecting w.
Proof.
  intros _ _ Hop. open_frame Hop fields E.
  assert (keeps passive (_handleGatewayObject (VObj fields))) as K; [|exact (K w)].
  unfold _handleGatewayObject, get_prop. rewrite E. simpl default.
  apply keeps_ret_bind. unfold log.
  apply keeps_bind; [eauto | passive_prim | intros _].
  change (Js.assoc (Js.toString (VNum 0)) GatewayOpcodes) with (Some "Dispatch").
  cbv beta iota. unfold switch. simpl Js.assoc at 1. simpl default at 1.
  frame; passive_prim.
Qed.

Lemma dispatch_is_passive_witness :
  dispatchCallbacks (this greeted_world) = ∅
  /\ commandCallbacks (this greeted_world) = ∅
  /\ frame_op ping_frame = Some 0
  /\ writes (trace (run (_handleGatewayObject ping_frame) greeted_world))
     = writes (trace greeted_world).
Proof.
  split; [reflexivity|]. split; [reflexivity|]. split; [reflexivity|].
  exact (proj1 (dispatch_is_passive ping_frame greeted_world
                  eq_refl eq_refl eq_refl)).
Defined.

(** ** What the client writes *)

Ltac frame_prim :=
  intros ?;
  first
    [ exists []; split; [simpl; now rewrite app_nil_r | apply List.Forall_nil]
    | eexists [_]; split;
      [ reflexivity
      | apply List.Forall_cons; [|apply List.Forall_nil];
        first [ exact I | simpl; tauto ] ] ].

Lemma frame_ok_handler (JSON_parse : string -> option value) (e : event) :
  keeps (extends frame_ok) (handler JSON_parse e).
Proof. destruct e; simpl; frame; frame_prim. Qed.

(** X18.  Every frame the client has written is an object [{op, d, s,
    t}] whose [s] and [t] are [null] and whose opcode is 1, 2, 3, 4 or
    6. *)
Theorem written_frames_shape
    (JSON_parse : string -> option value) (w : World) (k : sock) (p : packet) :
  reachable JSON_parse w ->
  In (Write k p) (trace w) ->
  s p = VNull /\ t p = VNull /\ In (op p) [1; 2; 3; 4; 6].
Proof.
  intros Hr Hin.
  assert (Forall frame_ok (trace w)) as F.
  { clear Hin. induction Hr as [token intents isBot | w e _ IH He].
    - repeat (apply List.Forall_cons; [exact I|]). apply List.Forall_nil.
    - destruct (frame_ok_handler JSON_parse e w) as [l [Hl Fl]].
      unfold step, run. rewrite Hl. apply Forall_app. split; assumption. }
  rewrite List.Forall_forall in F. exact (F _ Hin).
Qed.

Lemma written_frames_shape_witness :
  reachable sample_parse waiting_world
  /\ In (Write 0%nat (Packet 1 VNull VNull VNull)) (trace waiting_world)
  /\ In 1 [1; 2; 3; 4; 6].
Proof.
  assert (In (Write 0%nat (Packet 1 VNull VNull VNull)) (trace waiting_world))
    as Hin by (simpl; repeat (first [left; reflexivity | right])).
  split; [exact waiting_reachable|]. split; [exact Hin|].
  exact (proj2 (proj2 (written_frames_shape sample_parse waiting_world 0%nat
                         (Packet 1 VNull VNull VNull) waiting_reachable Hin))).
Defined.

(** ** The end of the transport, and actions without one *)

(** X19.  When the connection signals its end, the client cancels the
    heartbeat timer it remembers and does nothing else: it does not
    reconnect, and its fields are as before.  If the armed timers are at
    most the remembered one, none is armed afterwards. *)
Theorem end_cancels_heartbeat (w : World) :
  tidy w ->
  timers (run on_end w) = []
  /\ this (run on_end w) = this w
  /\ connecting (run on_end w) = connecting w
  /\ trace (run on_end w)
     = (trace w ++ [ Log LLog "End of socket";
                     ClearInterval (heartbeatIntervalObj (this w)) ])%list.
Proof.
  intros Ht. unfold on_end. exec. repeat split.
  - destruct (timers w) as [|h l] eqn:E.
    + destruct (heartbeatIntervalObj (this w)); reflexivity.
    + assert (In h (timers w)) as Hin by (rewrite E; left; reflexivity).
      destruct (Ht h Hin) as [Hl ->]. rewrite E in Hl. injection Hl as ->.
      simpl. now rewrite Nat.eqb_refl.
  - now rewrite <- app_assoc.
Qed.

Lemma end_cancels_heartbeat_witness :
  tidy waiting_world /\ timers (run on_end waiting_world) = [].
Proof.
  assert (tidy waiting_world) as Ht.
  { intros h [<-|[]]. split; reflexivity. }
  split; [exact Ht|].
  exact (proj1 (end_cancels_heartbeat waiting_world Ht)).
Defined.

(** X20.  While the client holds no connection (as before the gateway
    has answered), [statusUpdate] and [leaveVoiceChannel] raise a
    TypeError and write nothing. *)
Theorem actions_need_connection
    (status game since afk guildID : value) (w : World) :
  socket (this w) = None ->
  statusUpdate status game since afk w
    = (Throw (TypeError "Cannot read properties of null (reading 'write')"),
       with_trace w (trace w ++ [Log LLog "Sending OP 3: Status Update"]))
  /\ leaveVoiceChannel guildID w
     = (Throw (TypeError "Cannot read properties of null (reading 'write')"),
        with_trace w
          (trace w ++ [Log LLog "Sending OP 4: Voice State Update"])).
Proof.
  intros Hk. unfold statusUpdate, leaveVoiceChannel, _sendOpcode, with_trace.
  exec. rewrite Hk. split; reflexivity.
Qed.

Lemma actions_need_connection_witness :
  socket (this (constructor (VStr "secret") (VNum 513) true)) = None
  /\ fst (statusUpdate (VStr "idle") VNull VNull (VBool false)
            (constructor (VStr "secret") (VNum 513) true))
     = Throw (TypeError "Cannot read properties of null (reading 'write')").
Proof.
  split; [reflexivity|].
  exact (f_equal fst
           (proj1 (actions_need_connection (VStr "idle") VNull VNull
                     (VBool false) VNull
                     (constructor (VStr "secret") (VNum 513) true) eq_refl))).
Defined.

Lemma joinVoiceChannel_not_voice_witness :
  Js.is_num (default VUndefined
               (Js.assoc "type" [("guild_id", VStr "g1"); ("type", VNum 0)])) 2
  = false
  /\ joinVoiceChannel_resumed (VStr "c1") (VBool false) (VBool false)
       (Ok (VObj [("guild_id", VStr "g1"); ("type", VNum 0)])) greeted_world
     = run_to (Log LWarning "joinVoiceChannel called on a non-voice channel")
         greeted_world.
Proof.
  split; [reflexivity|].
  exact (joinVoiceChannel_not_voice (VStr "c1") (VBool false) (VBool false)
           [("guild_id", VStr "g1"); ("type", VNum 0)] greeted_world eq_refl).
Defined.

Lemma joinVoiceChannel_voice_witness :
  Js.assoc "type" [("guild_id", VStr "g1"); ("type", VNum 2)] = Some (VNum 2)
  /\ socket (this greeted_world) = Some 0%nat
  /\ writes (trace (run (joinVoiceChannel_resumed (VStr "c1") VUndefined
                           (VBool true)
                           (Ok (VObj [("guild_id", VStr "g1"); ("type", VNum 2)])))
                      greeted_world))
     = (writes (trace greeted_world)
          ++ [Packet 4
                (VObj [ ("guild_id", VStr "g1"); ("channel_id", VStr "c1");
                        ("self_mute", VBool false); ("self_deaf", VBool true) ])
                VNull VNull])%list.
Proof.
  split; [reflexivity|]. split; [reflexivity|].
  exact (joinVoiceChannel_voice (VStr "c1") VUndefined (VBool true)
           [("guild_id", VStr "g1"); ("type", VNum 2)] greeted_world 0%nat
           eq_refl eq_refl).
Defined.

(** ** Leaving the resuming state *)

Lemma same_resuming_refl w : same_resuming w w.
Proof. reflexivity. Qed.

Lemma same_resuming_trans a b c :
  same_resuming a b -> same_resuming b c -> same_resuming a c.
Proof. unfold same_resuming. congruence. Qed.

#[local] Hint Resolve same_resuming_refl same_resuming_trans : core.

